(** * Swallow: a shallow embedding of [swallow.py]

    The development follows the module top to bottom: the Python values
    the code inspects, the interpreter state it touches ([sys.stdout],
    [sys.stderr]), the context manager [stdout_to_devnull], the validator
    [takes_no_positional_arguments], the decorator [singletest] with its
    [run] method, the diagnostic helpers [get_meaningful_expression] and
    [print_exception], and the class [Swallow]. *)

From Stdlib Require Import String Ascii List Bool Arith ZArith Lia DecimalString.
Import ListNotations.
Open Scope string_scope.

(** ** Interpreter state *)

(** What [sys.stdout] may be bound to: [None], a file object (identified
    by its handle) or some other object, which has no [close] method. *)
Inductive stdout_obj :=
| SNone
| SFile (fd : nat)
| SOther (id : nat).

(** [out] logs the text written through [print], with the handle that
    received it; [closed] lists the handles on which [close()] was called;
    [next_fd] is the handle the next [open] returns; [err] is what was
    written to [sys.stderr]. *)
Record world := mkWorld {
  sys_stdout : stdout_obj;
  next_fd : nat;
  closed : list nat;
  out : list (nat * string);
  err : list string
}.

Definition set_stdout (o : stdout_obj) (w : world) : world :=
  mkWorld o (next_fd w) (closed w) (out w) (err w).

(** ** Python values *)

(** A class object: its identity, its [__name__] and the identities of
    its proper ancestors.  Two classes are the same object exactly when
    their identities are equal, whatever their names. *)
Record pyclass := mkClass {
  cls_id : nat;
  cls_name : string;
  cls_mro : list nat
}.

(** [a is b] on classes, which is what [==] and [!=] between two classes
    come to. *)
Definition class_eqb (a b : pyclass) : bool :=
  Nat.eqb (cls_id a) (cls_id b).

Record exn := mkExn { exn_type : pyclass; exn_msg : string }.

#[local] Set Warnings "-register-all".

(** The values that the module is given: [None], booleans, integers,
    strings, classes, Python functions (with the names of the positional
    parameters without and with a default), Python functions that have
    keyword-only parameters or annotations (with the names of the
    keyword-only parameters without default as well), bound methods of a
    Python function (with the positional parameters of that function, the
    one that receives the instance included), built-ins, and other
    objects, with their [repr], their truth value, what calling them does
    when they are callable and what [c != obj] answers for a class [c]
    (true for an object without comparison methods of its own).  Tuples
    and the other containers are not among them. *)
Inductive pyval :=
| PyNone
| PyBool (b : bool)
| PyInt (n : Z)
| PyStr (s : string)
| PyType (c : pyclass)
| PyFunction (name : string) (required defaulted : list string)
             (code : world -> world * result)
| PyBuiltin (name : string) (code : world -> world * result)
| PyObject (repr : string) (truth : bool)
           (call : option (world -> world * result))
           (differs : pyclass -> bool)
| PyMethod (name : string) (required defaulted : list string)
           (code : world -> world * result)
| PyFunctionKw (name : string) (required defaulted kwrequired : list string)
               (code : world -> world * result)
with result :=
| Returned
| Raised (e : exn) (tb : option traceback)
with traceback :=
| Tb (tb_frame : frame) (tb_lineno : Z) (tb_next : option traceback)
with frame :=
| Frame (co_name : string) (f_locals f_globals : list (string * pyval))
        (source : option (list string * Z)).

(** The outcome of a computation that may raise. *)
Inductive res (A : Type) :=
| Ok (a : A)
| Err (e : exn) (tb : option traceback).
Arguments Ok {A} a.
Arguments Err {A} e tb.

(** Computations thread the interpreter state; the state survives a raise. *)
Definition M (A : Type) : Type := world -> world * res A.

Definition ret {A} (a : A) : M A := fun w => (w, Ok a).
Definition raise {A} (e : exn) (tb : option traceback) : M A :=
  fun w => (w, Err e tb).
Definition bind {A B} (m : M A) (k : A -> M B) : M B :=
  fun w => match m w with
           | (w', Ok a) => k a w'
           | (w', Err e tb) => (w', Err e tb)
           end.

Notation "x <- m ;; k" := (bind m (fun x => k))
  (at level 61, m at next level, right associativity).
Notation "m ;;; k" := (bind m (fun _ => k))
  (at level 61, right associativity).

(** *** Built-in classes *)

Definition BaseException := mkClass 1 "BaseException" [0].
Definition Exception := mkClass 2 "Exception" [1; 0].
Definition KeyboardInterrupt := mkClass 3 "KeyboardInterrupt" [1; 0].
Definition TypeError := mkClass 4 "TypeError" [2; 1; 0].
Definition ValueError := mkClass 5 "ValueError" [2; 1; 0].
Definition AttributeError := mkClass 6 "AttributeError" [2; 1; 0].
Definition LookupError := mkClass 7 "LookupError" [2; 1; 0].
Definition IndexError := mkClass 8 "IndexError" [7; 2; 1; 0].
Definition OSError := mkClass 9 "OSError" [2; 1; 0].
Definition ArithmeticError := mkClass 10 "ArithmeticError" [2; 1; 0].
Definition ZeroDivisionError := mkClass 11 "ZeroDivisionError" [10; 2; 1; 0].
Definition AssertionError := mkClass 12 "AssertionError" [2; 1; 0].
Definition NameError := mkClass 13 "NameError" [2; 1; 0].
Definition UnboundLocalError := mkClass 14 "UnboundLocalError" [13; 2; 1; 0].

(** [issubclass(c, base)] *)
Definition issubclass (c base : pyclass) : bool :=
  Nat.eqb (cls_id c) (cls_id base)
  || existsb (Nat.eqb (cls_id base)) (cls_mro c).

(** [issubclass(c, Exception)]: what an [except Exception] clause catches. *)
Definition is_Exception (c : pyclass) : bool := issubclass c Exception.

(** [try: m  except Exception: handler] *)
Definition try_except_Exception {A} (m : M A)
    (handler : exn -> option traceback -> M A) : M A :=
  fun w => match m w with
           | (w', Err e tb) =>
               if is_Exception (exn_type e) then handler e tb w'
               else (w', Err e tb)
           | r => r
           end.

(** *** Observations on values *)

(** [bool(v)] *)
Definition truthy (v : pyval) : bool :=
  match v with
  | PyNone => false
  | PyBool b => b
  | PyInt n => negb (Z.eqb n 0)
  | PyStr s => negb (String.eqb s "")
  | PyType _ | PyFunction _ _ _ _ | PyBuiltin _ _ => true
  | PyMethod _ _ _ _ | PyFunctionKw _ _ _ _ _ => true
  | PyObject _ t _ _ => t
  end.

(** [callable(v)] *)
Definition callable (v : pyval) : bool :=
  match v with
  | PyType _ | PyFunction _ _ _ _ | PyBuiltin _ _ => true
  | PyMethod _ _ _ _ | PyFunctionKw _ _ _ _ _ => true
  | PyObject _ _ (Some _) _ => true
  | _ => false
  end.

(** [v is None] *)
Definition is_None (v : pyval) : bool :=
  match v with PyNone => true | _ => false end.

(** [v.__name__], [None] standing for [AttributeError]. *)
Definition getattr_name (v : pyval) : option string :=
  match v with
  | PyType c => Some (cls_name c)
  | PyFunction n _ _ _ | PyBuiltin n _ => Some n
  | PyMethod n _ _ _ | PyFunctionKw n _ _ _ _ => Some n
  | _ => None
  end.

Definition str_of_Z (n : Z) : string := NilZero.string_of_int (Z.to_int n).

(** [repr(v)] *)
Definition py_repr (v : pyval) : string :=
  match v with
  | PyNone => "None"
  | PyBool true => "True"
  | PyBool false => "False"
  | PyInt n => str_of_Z n
  | PyStr s => "'" ++ s ++ "'"
  | PyType c => "<class '" ++ cls_name c ++ "'>"
  | PyFunction n _ _ _ => "<function " ++ n ++ ">"
  | PyBuiltin n _ => "<built-in function " ++ n ++ ">"
  | PyObject r _ _ _ => r
  | PyMethod n _ _ _ => "<bound method " ++ n ++ ">"
  | PyFunctionKw n _ _ _ _ => "<function " ++ n ++ ">"
  end.

(** [str(v)] *)
Definition py_str (v : pyval) : string :=
  match v with
  | PyStr s => s
  | _ => py_repr v
  end.

(** [v()] from a frame of this module: a Python function runs its code
    when nothing is missing from the call (for a bound method the
    instance fills the first positional parameter), a built-in or a
    callable object runs its code, instantiating a class returns, and
    anything else raises [TypeError] at the call site. *)
Definition call (v : pyval) : M unit :=
  fun w =>
    let run_code (code : world -> world * result) :=
      match code w with
      | (w', Returned) => (w', Ok tt)
      | (w', Raised e tb) => (w', Err e tb)
      end in
    match v with
    | PyFunction _ [] _ code => run_code code
    | PyFunction n (_ :: _) _ _ =>
        (w, Err (mkExn TypeError
                   (n ++ "() missing required positional arguments")) None)
    | PyBuiltin _ code => run_code code
    | PyObject _ _ (Some code) _ => run_code code
    | PyMethod _ ([] | [_]) _ code => run_code code
    | PyMethod n (_ :: _ :: _) _ _ =>
        (w, Err (mkExn TypeError
                   (n ++ "() missing required positional arguments")) None)
    | PyFunctionKw _ [] _ [] code => run_code code
    | PyFunctionKw n _ _ _ _ =>
        (w, Err (mkExn TypeError (n ++ "() missing required arguments")) None)
    | PyType _ => (w, Ok tt)
    | _ => (w, Err (mkExn TypeError "object is not callable") None)
    end.

(** [sys.stdout.write(s)] as [print] does it: the text goes to the file
    bound to [sys.stdout]; a closed file raises [ValueError], an object
    that is no file [AttributeError], and nothing happens when
    [sys.stdout] is [None]. *)
Definition write (s : string) : M unit :=
  fun w =>
    match sys_stdout w with
    | SNone => (w, Ok tt)
    | SFile fd =>
        if existsb (Nat.eqb fd) (closed w)
        then (w, Err (mkExn ValueError "I/O operation on closed file.") None)
        else (mkWorld (sys_stdout w) (next_fd w) (closed w)
                      (out w ++ [(fd, s)])%list (err w), Ok tt)
    | SOther _ => (w, Err (mkExn AttributeError
                             "object has no attribute 'write'") None)
    end.

Definition nl : string := String "010" "".

(** [print(s)] and [print(s, end='')] *)
Definition print (s : string) : M unit := write (s ++ nl).
Definition print_noend (s : string) : M unit := write s.

(** [print(s, file=sys.stderr)]: one more line on [sys.stderr]. *)
Definition print_stderr (s : string) : M unit :=
  fun w => (mkWorld (sys_stdout w) (next_fd w) (closed w) (out w)
                    (err w ++ [s])%list, Ok tt).

(** ** [stdout_to_devnull] *)

Module stdout_to_devnull.

Record t := mk { stdout : stdout_obj; hide : bool }.

Definition __init__ (hide : bool) : t := mk SNone hide.

(** [open(os.devnull, 'w')]: a fresh handle. *)
Definition open_devnull (w : world) : world * stdout_obj :=
  (mkWorld (sys_stdout w) (S (next_fd w)) (closed w) (out w) (err w),
   SFile (next_fd w)).

Definition __enter__ (self : t) (w : world) : t * world * stdout_obj :=
  if hide self then
    let self' := mk (sys_stdout w) (hide self) in
    let '(w1, devnull) := open_devnull w in
    (self', set_stdout devnull w1, stdout self')
  else (self, w, sys_stdout w).

(** [sys.stdout.close()] *)
Definition close_stdout : M unit :=
  fun w =>
    match sys_stdout w with
    | SFile fd =>
        (mkWorld (sys_stdout w) (next_fd w) (fd :: closed w) (out w)
                 (err w), Ok tt)
    | _ => (w, Err (mkExn AttributeError
                      "object has no attribute 'close'") None)
    end.

Definition __exit__ (self : t) : M unit :=
  if hide self then
    close_stdout ;;;
    (fun w => (set_stdout (stdout self) w, Ok tt))
  else ret tt.

(** [with stdout_to_devnull(hide): body].  [__exit__] returns [None], so
    an exception of the body goes on after it; an exception of
    [__exit__] itself replaces the body's. *)
Definition with_ {A} (hide : bool) (body : M A) : M A :=
  fun w =>
    let '(self, w1, _) := __enter__ (__init__ hide) w in
    let '(w2, r) := body w1 in
    match __exit__ self w2 with
    | (w3, Ok _) => (w3, r)
    | (w3, Err e tb) => (w3, Err e tb)
    end.

End stdout_to_devnull.

(** ** [takes_no_positional_arguments] *)

(** [inspect.getargspec(fn)], as far as the module uses it: the names of
    the positional parameters and the tuple of their defaults ([None]
    when there is none).  In a [def] the parameters with a default follow
    those without.  A bound method is described by the function it
    binds, the parameter for the instance included.  A function with
    keyword-only parameters or annotations raises [ValueError], and what
    is neither a Python function nor a bound method of one raises
    [TypeError]. *)
Definition getargspec (fn : pyval)
  : res (list string * option (list string)) :=
  match fn with
  | PyFunction _ required defaulted _
  | PyMethod _ required defaulted _ =>
      Ok ((required ++ defaulted)%list,
          match defaulted with [] => None | _ => Some defaulted end)
  | PyFunctionKw _ _ _ _ _ =>
      Err (mkExn ValueError
             "Function has keyword-only arguments or annotations, use getfullargspec() API which can support them")
          None
  | _ => Err (mkExn TypeError "arg is not a Python function") None
  end.

(** [Ok (Some true)], [Ok (Some false)] or [Ok None], as the Python
    function returns [True], [False] or [None]; an error of [getargspec]
    that is no [TypeError] goes through. *)
Definition takes_no_positional_arguments (fn : pyval) : res (option bool) :=
  match getargspec fn with
  | Err e tb =>
      if issubclass (exn_type e) TypeError then Ok None else Err e tb
  | Ok (pos, default) =>
      let default := match default with Some d => d | None => [] end in
      Ok (Some (Z.eqb (Z.of_nat (length default) - Z.of_nat (length pos)) 0))
  end.

(** ** [singletest] *)

Module singletest.

Import stdout_to_devnull.

(** The closure that [singletest(...)(fn)] builds: the decorated function
    and the four arguments its [run] captures. *)
Record testcase := mkTest {
  expected : pyval;
  setup : pyval;
  teardown : pyval;
  run_if : pyval;
  fn : pyval
}.

(** [sys.exc_info()] *)
Record exc_info := mkExcInfo {
  ei_type : pyclass;
  ei_value : exn;
  ei_tb : traceback
}.

(** The traceback seen in [run]: the frame of [run] at the line of the
    call, then the frames of the callee. *)
Definition run_frame : frame := Frame "run" [] [] None.

Definition sys_exc_info (lineno : Z) (e : exn) (tb : option traceback)
  : exc_info :=
  mkExcInfo (exn_type e) e (Tb run_frame lineno tb).

(** The loop of [decorating_function] over one of [fn], [setup],
    [teardown].  On the values modelled, none of which is a tuple,
    ['%s ...' % f] is [str(f)] followed by the rest of the text. *)
Definition check_callable (f : pyval) : res unit :=
  if negb (is_None f) && negb (callable f)
  then Err (mkExn ValueError (py_str f ++ " isn't callable.")) None
  else
    match takes_no_positional_arguments f with
    | Err e tb => Err e tb
    | Ok (Some false) =>
        Err (mkExn ValueError
               (py_str f ++
                " isn't callable without positional arguments.")) None
    | Ok _ => Ok tt
    end.

(** [singletest(expected, setup, teardown, run_if)(fn)] *)
Definition decorating_function (expected setup teardown run_if fn : pyval)
  : res testcase :=
  match check_callable fn with
  | Err e tb => Err e tb
  | Ok _ =>
    match check_callable setup with
    | Err e tb => Err e tb
    | Ok _ =>
      match check_callable teardown with
      | Err e tb => Err e tb
      | Ok _ => Ok (mkTest expected setup teardown run_if fn)
      end
    end
  end.

(** [(state, reason, exc)]; [state] is [True], [False] or [None]. *)
Definition outcome : Type := option bool * option string * option exc_info.

(** The name in the message of a missing exception. *)
Definition expected_name (expected : pyval) : string :=
  match getattr_name expected with
  | Some n => n
  | None => py_str expected
  end.

(** [type(e) != expected]: between two classes the answer is whether
    they are different objects; an object with comparison methods of its
    own gives its own answer; any other value differs from a class. *)
Definition type_differs (e : exn) (expected : pyval) : bool :=
  match expected with
  | PyType c => negb (class_eqb (exn_type e) c)
  | PyObject _ _ _ differs => differs (exn_type e)
  | _ => true
  end.

(** [with stdout_to_devnull(no_output): f()] *)
Definition call_quietly (no_output : bool) (f : pyval) : M unit :=
  with_ no_output (call f).

(** The [setup] part of [run]: [Some o] when [run] returns [o] there. *)
Definition run_setup (t : testcase) (no_output : bool)
  : M (option outcome) :=
  if truthy (setup t) then
    try_except_Exception
      (call_quietly no_output (setup t) ;;; ret None)
      (fun e tb => ret (Some (Some false, None,
                              Some (sys_exc_info 185 e tb))))
  else ret None.

(** The [try] around the call of [fn]. *)
Definition run_body (t : testcase) (no_output : bool) : M outcome :=
  try_except_Exception
    (call_quietly no_output (fn t) ;;;
     if truthy (expected t) then
       ret (Some false,
            Some ("No exception was raised (expected "
                  ++ expected_name (expected t) ++ ")."),
            None)
     else ret (Some true, None, None))
    (fun e tb =>
       if type_differs e (expected t)
       then ret (Some false, None, Some (sys_exc_info 195 e tb))
       else ret (Some true, None, None)).

(** The [teardown] part of [run]. *)
Definition run_teardown (t : testcase) (no_output : bool) (o : outcome)
  : M outcome :=
  let '(state, reason, exc) := o in
  if truthy (teardown t) then
    try_except_Exception
      (call_quietly no_output (teardown t) ;;; ret o)
      (fun e tb =>
         match reason, exc with
         | None, None => ret (Some false, reason,
                              Some (sys_exc_info 212 e tb))
         | _, _ => ret o
         end)
  else ret o.

Definition run (t : testcase) (no_output : bool) : M outcome :=
  if negb (truthy (run_if t)) then ret (None, None, None)
  else
    early <- run_setup t no_output ;;
    match early with
    | Some o => ret o
    | None =>
        o <- run_body t no_output ;;
        run_teardown t no_output o
    end.

End singletest.

(** ** [get_meaningful_expression] and [print_exception] *)

(** The token types of [tokenize] that the code tells apart, and the
    others. *)
Inductive tok_type :=
| ENCODING | NAME | NUMBER | STRING | OP | COMMENT
| NEWLINE | NL | INDENT | DEDENT | ERRORTOKEN | ENDMARKER.

Definition token : Type := tok_type * string.

(** [l[i]] on a list, [None] standing for [IndexError]. *)
Definition list_getitem {A} (l : list A) (i : Z) : option A :=
  let len := Z.of_nat (length l) in
  let j := if (i <? 0)%Z then (i + len)%Z else i in
  if ((j <? 0) || (len <=? j))%Z then None else nth_error l (Z.to_nat j).

(** [d[k]] on a dictionary held as an association list. *)
Fixpoint dict_get (d : list (string * pyval)) (k : string) : option pyval :=
  match d with
  | [] => None
  | (k', v) :: d' => if String.eqb k k' then Some v else dict_get d' k
  end.

(** [' ' * n] *)
Fixpoint spaces (n : nat) : string :=
  match n with
  | O => ""
  | S n' => String " " (spaces n')
  end.

(** [s[n:]] *)
Definition str_from (n : nat) (s : string) : string :=
  substring n (String.length s - n) s.

(** [textwrap.dedent] on one line: the leading blanks and tabs go. *)
Fixpoint dedent (s : string) : string :=
  match s with
  | String c s' =>
      if (Ascii.eqb c " " || Ascii.eqb c "009")%bool then dedent s' else s
  | EmptyString => s
  end.

(** [while tb.tb_next: tb = tb.tb_next] *)
Fixpoint innermost (tb : traceback) : traceback :=
  match tb with
  | Tb _ _ (Some next) => innermost next
  | Tb _ _ None => tb
  end.

(** [inspect.getsourcelines(tb)]: the source lines of the frame's code
    and the number of the first one, [OSError] ([IOError] before Python
    3.3) when there is no source. *)
Definition getsourcelines (tb : traceback) : res (list string * Z) :=
  match tb with
  | Tb (Frame _ _ _ (Some src)) _ _ => Ok src
  | Tb (Frame _ _ _ None) _ _ =>
      Err (mkExn OSError "could not get source code") None
  end.

(** What the loop adds for a [NAME] token bound to [v]. *)
Definition expand_name (tok_str : string) (v : pyval) : string :=
  if callable v then tok_str
  else match getattr_name v with
       | Some n => n
       | None => py_repr v
       end.

(** One round of the loop over the tokens: the rest of the line and the
    expansion so far, [ValueError] when [err_line.index] finds nothing. *)
Definition expand_token (local_vars global_vars : list (string * pyval))
    (tok : token) (st : string * string) : res (string * string) :=
  let '(err_line, expanded) := st in
  let '(ty, tok_str) := tok in
  match ty with
  | ENCODING => Ok st
  | _ =>
    match String.index 0 tok_str err_line with
    | None => Err (mkExn ValueError "substring not found") None
    | Some i =>
        let expanded := expanded ++ spaces i in
        let err_line := str_from (i + String.length tok_str) err_line in
        match ty with
        | NAME =>
            match dict_get local_vars tok_str with
            | Some v => Ok (err_line, expanded ++ expand_name tok_str v)
            | None =>
                match dict_get global_vars tok_str with
                | Some v => Ok (err_line, expanded ++ expand_name tok_str v)
                | None => Ok (err_line, expanded ++ tok_str)
                end
            end
        | _ => Ok (err_line, expanded ++ tok_str)
        end
    end
  end.

Fixpoint expand_tokens (local_vars global_vars : list (string * pyval))
    (toks : list token) (st : string * string) : res (string * string) :=
  match toks with
  | [] => Ok st
  | tok :: toks' =>
      match expand_token local_vars global_vars tok st with
      | Ok st' => expand_tokens local_vars global_vars toks' st'
      | Err e tb => Err e tb
      end
  end.

Section Expander.

(** [tokenize.tokenize] on one line: a generator, which yields tokens
    and may then raise ([TokenError] on a line that ends inside a
    bracket or a string). *)
Variable tokenize : string -> list token * option exn.

(** [tb] is what the caller holds, [None] included. *)
Definition get_meaningful_expression (tb : option traceback)
  : res (string * string) :=
  match tb with
  | None =>
      Err (mkExn AttributeError
             "'NoneType' object has no attribute 'tb_next'") None
  | Some tb =>
    let tb := innermost tb in
    let '(Tb (Frame _ local_vars global_vars _) err_lineno _) := tb in
    match getsourcelines tb with
    | Err e t => Err e t
    | Ok (source, lineno) =>
      match list_getitem source (err_lineno - lineno) with
      | None => Err (mkExn IndexError "list index out of range") None
      | Some line =>
        let err_line := dedent line in
        let backup := err_line in
        let '(toks, failure) := tokenize err_line in
        match expand_tokens local_vars global_vars toks (err_line, "") with
        | Err e t => Err e t
        | Ok (_, expanded) =>
            match failure with
            | Some e => Err e None
            | None => Ok (backup, expanded)
            end
        end
      end
    end
  end.

(** [traceback.format_tb], one line per frame. *)
Fixpoint format_tb (tb : traceback) : list string :=
  match tb with
  | Tb (Frame name _ _ _) lineno next =>
      ("  line " ++ str_of_Z lineno ++ ", in " ++ name)
      :: match next with
         | Some tb' => format_tb tb'
         | None => []
         end
  end.

(** [traceback.print_exception(type, value, tb)] writes these lines. *)
Definition format_exception (type : pyclass) (value : exn)
    (tb : option traceback) : list string :=
  (match tb with
   | Some tb => "Traceback (most recent call last):" :: format_tb tb
   | None => []
   end ++ [(cls_name type ++ ": " ++ exn_msg value)%string])%list.

Definition traceback_print_exception (type : pyclass) (value : exn)
    (tb : option traceback) : M unit :=
  fun w => (mkWorld (sys_stdout w) (next_fd w) (closed w) (out w)
                    (err w ++ format_exception type value tb)%list,
            Ok tt).

Definition print_exception (type : pyclass) (value : exn)
    (tb : traceback) (expand_errors : bool) : M unit :=
  let '(Tb _ _ tb) := tb in
  traceback_print_exception type value tb ;;;
  if expand_errors then
    fun w =>
      match get_meaningful_expression tb with
      | Err e t => (w, Err e t)
      | Ok (o, e) =>
          if negb (String.eqb o e)
          then print_stderr (spaces 4 ++ e) w
          else (w, Ok tt)
      end
  else ret tt.

End Expander.

(** ** [timer] *)

(** The wrapper that [timer] builds; [elapsed] is the formatted
    difference of the two clock readings. *)
Definition timer {A} (elapsed : string) (f : M A) : M A :=
  r <- f ;;
  print ("Executed in " ++ elapsed ++ " seconds.") ;;;
  ret r.

(** ** [Swallow] *)

Module Swallow.

Import singletest.

Record t := mk {
  tests : list testcase;
  setup : pyval;
  teardown : pyval
}.

Definition __init__ (setup teardown : pyval) : t := mk [] setup teardown.

(** [self.tests.append(tc)] *)
Definition append (tc : testcase) (self : t) : t :=
  mk (tests self ++ [tc]) (setup self) (teardown self).

(** The inner [wrapper] of [__call__] and of [expect], applied to [fn]
    when the suite is [self]. *)
Definition wrapper (expected run_if fn : pyval) (self : t)
  : res (t * testcase) :=
  match decorating_function expected (setup self) (teardown self)
                            run_if fn with
  | Err e tb => Err e tb
  | Ok tc => Ok (append tc self, tc)
  end.

(** What [__call__] returns: the decorated function, or a decorator. *)
Inductive call_result :=
| Decorated (tc : testcase)
| Decorator (wrapper : pyval -> t -> res (t * testcase)).

Definition __call__ (self : t) (run_if : pyval) : res (t * call_result) :=
  if callable run_if then
    let fn := run_if in
    match decorating_function PyNone (setup self) (teardown self)
                              (PyBool true) fn with
    | Err e tb => Err e tb
    | Ok tc => Ok (append tc self, Decorated tc)
    end
  else Ok (self, Decorator (wrapper PyNone run_if)).

Definition expect (self : t) (expected run_if : pyval)
  : pyval -> t -> res (t * testcase) :=
  wrapper expected run_if.

(** The generator of [__iter__], run to its end. *)
Fixpoint iter_tests (ts : list testcase) : M (list outcome) :=
  match ts with
  | [] => ret []
  | tc :: ts' =>
      o <- singletest.run tc false ;;
      os <- iter_tests ts' ;;
      ret (o :: os)
  end.

Definition __iter__ (self : t) : M (list outcome) :=
  iter_tests (tests self).

(** [t.__name__]: [functools.wraps] copies the name of [fn] when it has
    one. *)
Definition test_name (tc : testcase) : string :=
  match getattr_name (fn tc) with
  | Some n => n
  | None => "wrapper"
  end.

Definition str_of_nat (n : nat) : string := str_of_Z (Z.of_nat n).

Section Run.

Variable tokenize : string -> list token * option exn.
Variable elapsed : string.

(** The [for] loop of [run]; [last] holds [type, value, tb] as the
    latest iteration that assigned them left them. *)
Fixpoint run_tests (ts : list testcase) (no_output expand_errors : bool)
    (counts : nat * nat * nat) (last : option exc_info)
  : M (nat * nat * nat) :=
  match ts with
  | [] => ret counts
  | tc :: ts' =>
      let '(passed, not_run, failed) := counts in
      print_noend ("Testing " ++ test_name tc ++ ": ") ;;;
      o <- singletest.run tc no_output ;;
      let '(state, reason, exc) := o in
      let last := match exc with Some ei => Some ei | None => last end in
      counts' <-
        match state with
        | Some true =>
            print "PASS" ;;; ret (S passed, not_run, failed)
        | None =>
            print "NOT RUN" ;;; ret (passed, S not_run, failed)
        | Some false =>
            print "FAIL" ;;;
            match reason with
            | Some (String c r) => print_stderr (String c r)
            | _ =>
                match last with
                | Some ei =>
                    print_exception tokenize (ei_type ei) (ei_value ei)
                                    (ei_tb ei) expand_errors
                | None =>
                    raise (mkExn UnboundLocalError
                             "local variable 'type' referenced before assignment")
                          None
                end
            end ;;;
            ret (passed, not_run, S failed)
        end ;;
      run_tests ts' no_output expand_errors counts' last
  end.

Definition summary (n passed not_run failed : nat) : string :=
  str_of_nat n ++ " tests, " ++ str_of_nat passed ++ " PASS, "
  ++ str_of_nat not_run ++ " NOT RUN, " ++ str_of_nat failed ++ " FAIL".

Definition run (self : t) (no_output expand_errors : bool)
  : M (nat * nat * nat) :=
  timer elapsed
    (counts <- run_tests (tests self) no_output expand_errors
                         (0, 0, 0) None ;;
     let '(passed, not_run, failed) := counts in
     print "" ;;;
     print (summary (length (tests self)) passed not_run failed) ;;;
     ret (passed, not_run, failed)).

End Run.

End Swallow.

(** * Vocabulary of the specification *)

Module Spec.

Import singletest.

(** An error: an instance of a class derived from [Exception]. *)
Definition is_error (e : exn) : Prop := is_Exception (exn_type e) = true.

(** One step of the protocol of [run] on an optional callable: [f],
    when present, is invoked inside the capture scope. *)
Definition step (no_output : bool) (f : pyval) : M unit :=
  if truthy f then call_quietly no_output f else ret tt.

(** Whatever [m] raises from [w] is an error. *)
Definition raises_errors_only {A} (m : M A) (w : world) : Prop :=
  match m w with
  | (_, Err e _) => is_error e
  | (_, Ok _) => True
  end.

(** What the body phase records, from the result of the call of [fn]
    inside its scope. *)
Definition body_record (t : testcase) (r : res unit) : res outcome :=
  match r with
  | Ok _ =>
      if truthy (expected t)
      then Ok (Some false,
               Some ("No exception was raised (expected "
                     ++ expected_name (expected t) ++ ")."),
               None)
      else Ok (Some true, None, None)
  | Err e tb =>
      if is_Exception (exn_type e)
      then if type_differs e (expected t)
           then Ok (Some false, None, Some (sys_exc_info 195 e tb))
           else Ok (Some true, None, None)
      else Err e tb
  end.

(** What the teardown phase makes of the outcome [o] so far, from the
    result of the step on [teardown]. *)
Definition teardown_record (o : outcome) (r : res unit) : res outcome :=
  match r with
  | Ok _ => Ok o
  | Err e tb =>
      if is_Exception (exn_type e)
      then match o with
           | (_, None, None) =>
               Ok (Some false, None, Some (sys_exc_info 212 e tb))
           | _ => Ok o
           end
      else Err e tb
  end.

(** The source line that the expansion works on, when there is one. *)
Definition source_line (tb : traceback) : option string :=
  let '(Tb _ err_lineno _) := innermost tb in
  match getsourcelines (innermost tb) with
  | Ok (source, lineno) => list_getitem source (err_lineno - lineno)
  | Err _ _ => None
  end.

(** [sub] occurs in [s]. *)
Definition contains (sub s : string) : Prop :=
  exists pre post, s = pre ++ sub ++ post.

(** The traversal of the cases in registration order, each run with
    [no_output]: the outcomes it yields and the state it leaves, when
    nothing else touches the state in between. *)
Inductive yields (no_output : bool)
  : list testcase -> world -> list outcome -> world -> Prop :=
| yields_nil w : yields no_output [] w [] w
| yields_cons tc ts w w1 w2 o os :
    run tc no_output w = (w1, Ok o) ->
    yields no_output ts w1 os w2 ->
    yields no_output (tc :: ts) w (o :: os) w2.

(** The traversal as the specification words it: every case is run
    with its output captured. *)
Fixpoint iter_captured (ts : list testcase) : M (list outcome) :=
  match ts with
  | [] => ret []
  | tc :: ts' =>
      o <- run tc true ;;
      os <- iter_captured ts' ;;
      ret (o :: os)
  end.

(** The number of outcomes with a given [state]. *)
Definition state_eqb (a b : option bool) : bool :=
  match a, b with
  | None, None => true
  | Some x, Some y => Bool.eqb x y
  | _, _ => false
  end.

Definition tally (state : option bool) (os : list outcome) : nat :=
  length (filter (fun o : outcome => state_eqb (fst (fst o)) state) os).

(** [print] can write: [sys.stdout] is [None] or an open file whose
    handle has been handed out. *)
Definition stdout_usable (w : world) : bool :=
  match sys_stdout w with
  | SNone => true
  | SFile fd =>
      ((fd <? next_fd w)%nat && negb (existsb (Nat.eqb fd) (closed w)))%bool
  | SOther _ => false
  end.

(** A case that returns from [run] and leaves [sys.stdout] usable. *)
Definition well_behaved (no_output : bool) (tc : testcase) : Prop :=
  forall w, stdout_usable w = true ->
    exists w' o, run tc no_output w = (w', Ok o)
                 /\ stdout_usable w' = true.

(** [getargspec] reports for [f] a positional parameter that has no
    default: [f] is a Python function with such a parameter, or a bound
    method of one, the parameter for the instance counting as one. *)
Definition requires_positional (f : pyval) : Prop :=
  exists name a required defaulted code,
    f = PyFunction name (a :: required) defaulted code
    \/ f = PyMethod name (a :: required) defaulted code.

(** [getargspec] cannot describe [f]: a Python function with
    keyword-only parameters or annotations. *)
Definition undescribed (f : pyval) : Prop :=
  exists name required defaulted kwrequired code,
    f = PyFunctionKw name required defaulted kwrequired code.

(** [f] is present and the validation of [singletest] refuses it. *)
Definition rejected (f : pyval) : Prop :=
  f <> PyNone
  /\ (callable f = false \/ requires_positional f \/ undescribed f).

End Spec.

(** * Concrete inputs *)

Module Inputs.

Import singletest.

(** A terminal on handle 0. *)
Definition w0 : world := mkWorld (SFile 0) 1 [] [] [].

Definition user_frame (name : string) (line : string) : frame :=
  Frame name [] [] (Some ([line], 1%Z)).

Definition raise_in (name line : string) (c : pyclass) (msg : string)
  : world -> world * result :=
  fun w =>
    (w, Raised (mkExn c msg) (Some (Tb (user_frame name line) 1 None))).

(** [def name(): pass] *)
Definition pass_ (name : string) : pyval :=
  PyFunction name [] [] (fun w => (w, Returned)).

(** [def name(): 1 // 0] *)
Definition div0 (name : string) : pyval :=
  PyFunction name [] []
    (raise_in name "    1 // 0" ZeroDivisionError
              "integer division or modulo by zero").

(** [lambda: int('')] *)
Definition int_empty : pyval :=
  PyFunction "<lambda>" [] []
    (raise_in "<lambda>" "int('')" ValueError
              "invalid literal for int() with base 10: ''").

(** [def name(): print(text)] *)
Definition printing (name text : string) : pyval :=
  PyFunction name [] []
    (fun w => match print text w with
              | (w', Ok _) => (w', Returned)
              | (w', Err e tb) => (w', Raised e tb)
              end).

(** [def f(required..., defaulted...=0): pass] *)
Definition fn_of (required defaulted : list string) : pyval :=
  PyFunction "f" required defaulted (fun w => (w, Returned)).

Definition builtin_print : pyval :=
  PyBuiltin "print" (fun w => (w, Returned)).

Definition state_of (r : world * res outcome) : option (option bool) :=
  match r with
  | (_, Ok (state, _, _)) => Some state
  | _ => None
  end.

(** The decorators of a suite, applied as [@t], [@t(cond)] and
    [@t.expect(kind)] apply them. *)
Definition register (r : res (Swallow.t * Swallow.call_result))
  : Swallow.t :=
  match r with
  | Ok (s, _) => s
  | Err _ _ => Swallow.__init__ PyNone PyNone
  end.

Definition decorate (d : res (Swallow.t * Swallow.call_result))
    (fn : pyval) : Swallow.t :=
  match d with
  | Ok (s, Swallow.Decorator wr) =>
      match wr fn s with
      | Ok (s', _) => s'
      | Err _ _ => s
      end
  | Ok (s, _) => s
  | Err _ _ => Swallow.__init__ PyNone PyNone
  end.

Definition expecting (s : Swallow.t) (expected fn : pyval) : Swallow.t :=
  match Swallow.expect s expected (PyBool true) fn s with
  | Ok (s', _) => s'
  | Err _ _ => s
  end.

(** The suite of the test [swallow_class]. *)
Definition swallow_class : Swallow.t :=
  let t := Swallow.__init__ PyNone PyNone in
  let t := decorate (Swallow.__call__ t (PyBool true)) (pass_ "a") in
  let t := decorate (Swallow.__call__ t (PyBool false)) (pass_ "b") in
  let t := register (Swallow.__call__ t (pass_ "c")) in
  let t := expecting t (PyType ZeroDivisionError) (div0 "d") in
  let t := register (Swallow.__call__ t (div0 "e")) in
  let t := expecting t (PyType TypeError) (div0 "f") in
  expecting t (PyType TypeError) (pass_ "g").

Definition states (r : world * res (list outcome))
  : option (list (option bool)) :=
  match r with
  | (_, Ok os) => Some (map (fun o : outcome => fst (fst o)) os)
  | _ => None
  end.

(** A tokenizer that yields nothing, and [tokenize] on the lines used
    here; [assert g(a,] ends inside a bracket. *)
Definition no_tokens : string -> list token * option exn :=
fun _ => ([], None).

Definition TokenError := mkClass 100 "TokenError" [2; 1; 0].

Definition tokenize_table (line : string) : list token * option exn :=
if String.eqb line ("assert g(a," ++ nl) then
  ([(ENCODING, "utf-8"); (NAME, "assert"); (NAME, "g"); (OP, "(");
    (NAME, "a"); (OP, ","); (NL, nl)],
   Some (mkExn TokenError "EOF in multi-line statement"))
else if String.eqb line "1 // 0" then
  ([(ENCODING, "utf-8"); (NUMBER, "1"); (OP, "//"); (NUMBER, "0");
    (NEWLINE, ""); (ENDMARKER, "")], None)
else if String.eqb line "assert x == y" then
  ([(ENCODING, "utf-8"); (NAME, "assert"); (NAME, "x"); (OP, "==");
    (NAME, "y"); (NEWLINE, ""); (ENDMARKER, "")], None)
else ([(ENCODING, "utf-8")], None).

(** [def h(): assert g(a,] and the rest on the next line. *)
Definition broken_assert : pyval :=
PyFunction "h" [] []
  (raise_in "h" ("    assert g(a," ++ nl) AssertionError "").

(** A suite whose one case fails on such a line. *)
Definition fragile_suite : Swallow.t :=
register (Swallow.__call__ (Swallow.__init__ PyNone PyNone) broken_assert).

(** The traceback of [assert x == y] failing with [x] 1 and [y] 2, [y]
    being a global. *)
Definition assert_tb : traceback :=
Tb (Frame "check" [("x", PyInt 1)] [("y", PyInt 2); ("x", PyInt 7)]
          (Some (["def check():"; "    x = 1"; "    assert x == y"], 10%Z)))
   12 None.

(** The error and the traceback that [div0 name] raises. *)
Definition zero_division : exn :=
  mkExn ZeroDivisionError "integer division or modulo by zero".

Definition tb_in (name : string) : option traceback :=
  Some (Tb (user_frame name "    1 // 0") 1 None).

(** [@singletest(ZeroDivisionError) def b(): 1 // 0] *)
Definition test_b : testcase :=
  mkTest (PyType ZeroDivisionError) PyNone PyNone (PyBool true) (div0 "b").

(** [@singletest(TypeError) def f(): 1 // 0] *)
Definition test_other : testcase :=
  mkTest (PyType TypeError) PyNone PyNone (PyBool true) (div0 "f").

(** [@singletest(TypeError) def g(): pass] *)
Definition test_g : testcase :=
  mkTest (PyType TypeError) PyNone PyNone (PyBool true) (pass_ "g").

(** Two classes with the same name and the same ancestors, as
    [csv.Error] and [locale.Error] are, and a subclass of the first. *)
Definition csv_Error : pyclass := mkClass 201 "Error" [2; 1; 0].
Definition locale_Error : pyclass := mkClass 202 "Error" [2; 1; 0].
Definition csv_SubError : pyclass := mkClass 203 "SubError" [201; 2; 1; 0].

(** [@singletest(csv.Error) def n(): raise locale.Error('x')] *)
Definition test_namesake : testcase :=
  mkTest (PyType csv_Error) PyNone PyNone (PyBool true)
         (PyFunction "n" [] []
            (raise_in "n" "    raise locale.Error('x')" locale_Error "x")).

(** [@singletest(csv.Error) def s(): raise SubError('x')] *)
Definition test_subclass : testcase :=
  mkTest (PyType csv_Error) PyNone PyNone (PyBool true)
         (PyFunction "s" [] []
            (raise_in "s" "    raise SubError('x')" csv_SubError "x")).

(** A passing body and a failing one, each with a teardown that raises. *)
Definition test_teardown : testcase :=
  mkTest PyNone PyNone (div0 "td") (PyBool true) (pass_ "a").

Definition test_both : testcase :=
  mkTest PyNone PyNone (div0 "td") (PyBool true) (div0 "e").

(** [@singletest(ValueError, setup=lambda: int('')) def c(): pass] *)
Definition test_c : testcase :=
  mkTest (PyType ValueError) int_empty PyNone (PyBool true) (pass_ "c").

Definition int_error : exn :=
  mkExn ValueError "invalid literal for int() with base 10: ''".

Definition tb_lambda : option traceback :=
  Some (Tb (user_frame "<lambda>" "int('')") 1 None).

(** A suite with one case, which prints. *)
Definition noisy_suite : Swallow.t :=
  register (Swallow.__call__ (Swallow.__init__ PyNone PyNone)
                             (printing "noisy" "hello")).

(** A suite of two cases that pass and one that fails. *)
Definition small_suite : Swallow.t :=
  let t := Swallow.__init__ PyNone PyNone in
  let t := register (Swallow.__call__ t (pass_ "a")) in
  let t := decorate (Swallow.__call__ t (PyBool false)) (pass_ "b") in
  register (Swallow.__call__ t (div0 "e")).

(** [sys.stdout = open(os.devnull, 'w')] *)
Definition rebinding : M unit :=
  fun w =>
    let '(w1, f) := stdout_to_devnull.open_devnull w in
    (set_stdout f w1, Ok tt).

(** [print('x'); raise ValueError('no')] *)
Definition print_then_raise : M unit :=
  print "x" ;;; raise (mkExn ValueError "no") None.

(** The traceback of an error raised in code that has no source. *)
Definition no_source_tb : traceback := Tb (Frame "e" [] [] None) 2 None.

(** The traceback of an error raised on the one line of [f]. *)
Definition one_line_tb : traceback :=
  Tb (user_frame "f" ("    assert g(a," ++ nl)) 1 None.

(** [lambda x: True]: a predicate with one parameter. *)
Definition predicate : pyval :=
  PyFunction "<lambda>" ["x"] [] (fun w => (w, Returned)).

(** The state that running [swallow_class] from [w0] leaves. *)
Definition swallow_class_after : world :=
  Eval vm_compute in
    fst (Swallow.run no_tokens "0.00" swallow_class true false w0).

End Inputs.

(** * Further vocabulary *)

Module Props.

Import singletest Spec.

(** A computation that, entered with a file bound to [sys.stdout], ends
    with a file bound to it. *)
Definition file_kept {A} (m : M A) : Prop :=
  forall w fd, sys_stdout w = SFile fd ->
    exists fd', sys_stdout (fst (m w)) = SFile fd'.

(** The same of the call of [f]. *)
Definition keeps_file (f : pyval) : Prop := file_kept (call f).

(** [for s in ls: print(s)] *)
Fixpoint print_lines (ls : list string) : M unit :=
  match ls with
  | [] => ret tt
  | s :: ls' => print s ;;; print_lines ls'
  end.

(** The text that the file of handle [fd] has received, in order. *)
Definition written_to (fd : nat) (w : world) : list string :=
  map snd (filter (fun p : nat * string => Nat.eqb (fst p) fd) (out w)).

(** The word that [Swallow.run] prints for a state. *)
Definition label (state : option bool) : string :=
  match state with
  | Some true => "PASS"
  | None => "NOT RUN"
  | Some false => "FAIL"
  end.

(** What [Swallow.run] writes for the cases [ts] with the outcomes [os]:
    for each case the name without a line end, then the word of its
    state. *)
Definition report_lines (ts : list testcase) (os : list outcome)
  : list string :=
  flat_map (fun p : testcase * outcome =>
              ["Testing " ++ Swallow.test_name (fst p) ++ ": ";
               label (fst (fst (snd p))) ++ nl])
           (combine ts os).

(** A case that returns from [run] and leaves the file [fd], bound to
    [sys.stdout], as it found it: still bound, still usable, with nothing
    more written to it. *)
Definition silent_on (fd : nat) (no_output : bool) (t : testcase) : Prop :=
  forall w, sys_stdout w = SFile fd -> stdout_usable w = true ->
    exists w' o,
      run t no_output w = (w', Ok o)
      /\ sys_stdout w' = SFile fd
      /\ stdout_usable w' = true
      /\ written_to fd w' = written_to fd w.

(** The error that the loop of [decorating_function] raises on a value
    [f] that it refuses: its own [ValueError], with the text of the check
    that refused, or the [ValueError] of [getargspec] when [f] is a
    function that [getargspec] cannot describe. *)
Definition registration_error (f : pyval) : exn :=
  match f with
  | PyFunctionKw _ _ _ _ _ =>
      mkExn ValueError
            "Function has keyword-only arguments or annotations, use getfullargspec() API which can support them"
  | _ =>
      mkExn ValueError
            (py_str f ++ if callable f
                         then " isn't callable without positional arguments."
                         else " isn't callable.")
  end.

(** The decorator [wrapper expected run_if] of a suite, applied to the
    functions [fs] one after the other. *)
Fixpoint register_each (expected run_if : pyval) (fs : list pyval)
    (self : Swallow.t) : res Swallow.t :=
  match fs with
  | [] => Ok self
  | f :: fs' =>
      match Swallow.wrapper expected run_if f self with
      | Ok (self', _) => register_each expected run_if fs' self'
      | Err e tb => Err e tb
      end
  end.

(** A value that is neither a class nor an object with comparison
    methods of its own: [c != v] is true for every class [c]. *)
Definition plain (v : pyval) : bool :=
  match v with
  | PyType _ | PyObject _ _ _ _ => false
  | _ => true
  end.

(** [tb.tb_next] *)
Definition tb_next (tb : traceback) : option traceback :=
  let '(Tb _ _ next) := tb in next.

End Props.

Module MoreInputs.

Import singletest Inputs.

(** [def stop(): raise KeyboardInterrupt()] *)
Definition interrupted : pyval :=
  PyFunction "stop" [] []
    (raise_in "stop" "    raise KeyboardInterrupt()" KeyboardInterrupt "").

(** [@singletest() def stop(): raise KeyboardInterrupt()] *)
Definition test_interrupted : testcase :=
  mkTest PyNone PyNone PyNone (PyBool true) interrupted.

(** [@singletest() def a(): pass] *)
Definition test_a : testcase :=
  mkTest PyNone PyNone PyNone (PyBool true) (pass_ "a").

(** [@singletest(run_if=False) def b(): 1 // 0] *)
Definition test_gated : testcase :=
  mkTest PyNone PyNone PyNone (PyBool false) (div0 "b").

(** [@singletest('ZeroDivisionError') def s(): 1 // 0]: the expected
    kind given as a string. *)
Definition test_string_kind : testcase :=
  mkTest (PyStr "ZeroDivisionError") PyNone PyNone (PyBool true) (div0 "s").

(** [@singletest(setup=..., teardown=...) def noisy(): print('hello')],
    with a setup and a teardown that print as well. *)
Definition test_noisy : testcase :=
  mkTest PyNone (printing "before" "in") (printing "after" "out")
         (PyBool true) (printing "noisy" "hello").

(** The built-in [len], called without argument: the error is raised
    at the call, there is no frame of the callee. *)
Definition builtin_len : pyval :=
  PyBuiltin "len"
    (fun w => (w, Raised (mkExn TypeError
                            "len() takes exactly one argument (0 given)")
                         None)).

Definition test_len : testcase :=
  mkTest PyNone PyNone PyNone (PyBool true) builtin_len.

(** A traceback of three frames. *)
Definition deep_tb : traceback :=
  Tb (user_frame "outer" "    middle()") 1
     (Some (Tb (user_frame "middle" "    inner()") 1
               (Some (Tb (user_frame "inner" "    1 // 0") 1 None)))).

(** [obj.m] with [def m(self): pass], and [def g() -> None: pass]. *)
Definition bound_method : pyval :=
  PyMethod "m" ["self"] [] (fun w => (w, Returned)).

Definition annotated : pyval :=
  PyFunctionKw "g" [] [] [] (fun w => (w, Returned)).

(** An object that is true, cannot be called and compares equal to
    everything, as [unittest.mock.ANY] does. *)
Definition any_object : pyval :=
  PyObject "<ANY>" true None (fun _ => false).

(** [@singletest(ANY) def e(): 1 // 0] *)
Definition test_any : testcase :=
  mkTest any_object PyNone PyNone (PyBool true) (div0 "e").

(** The suite of [examples.py]. *)
Definition examples_suite : Swallow.t :=
  let t := Swallow.__init__ PyNone PyNone in
  let t := register (Swallow.__call__ t (pass_ "answer_to_the_life")) in
  expecting t (PyType ZeroDivisionError) (div0 "division_by_zero").

End MoreInputs.

(** * The module's own tests, replayed on the model *)

Module Replay.

Import singletest Inputs.

(** [a.run() == (True, None, None)] *)
Example singletest_a :
  snd (run (mkTest PyNone PyNone PyNone (PyBool true) (pass_ "a")) true w0)
  = Ok (Some true, None, None).
Proof. reflexivity. Qed.

(** [b.run() == (True, None, None)] *)
Example singletest_b :
  snd (run (mkTest (PyType ZeroDivisionError) PyNone PyNone (PyBool true)
                   (div0 "b")) true w0)
  = Ok (Some true, None, None).
Proof. reflexivity. Qed.

(** [c.run()[0] is False] *)
Example singletest_c :
  state_of (run (mkTest (PyType ValueError) int_empty PyNone (PyBool true)
                        (pass_ "c")) true w0)
  = Some (Some false).
Proof. reflexivity. Qed.

(** [e.run()[0] is False] and [e.run()[2][0] is ZeroDivisionError] *)
Example singletest_e :
  exists ei,
    snd (run (mkTest PyNone PyNone PyNone (PyBool true) (div0 "e")) true w0)
    = Ok (Some false, None, Some ei)
    /\ ei_type ei = ZeroDivisionError.
Proof. eexists. split; reflexivity. Qed.

(** [f.run()[1] is not None] *)
Example singletest_f :
  snd (run (mkTest (PyType TypeError) PyNone PyNone (PyBool true)
                   (pass_ "f")) true w0)
  = Ok (Some false,
        Some "No exception was raised (expected TypeError).", None).
Proof. reflexivity. Qed.

(** The cases of the test [takes_no_positional_arguments]. *)
Example takes_no_positional_arguments_cases :
  takes_no_positional_arguments builtin_print = Ok None
  /\ takes_no_positional_arguments (fn_of [] []) = Ok (Some true)
  /\ takes_no_positional_arguments (fn_of ["a"] []) = Ok (Some false)
  /\ takes_no_positional_arguments (fn_of [] ["a"]) = Ok (Some true)
  /\ takes_no_positional_arguments (fn_of [] ["a"; "b"]) = Ok (Some true)
  /\ takes_no_positional_arguments (fn_of ["a"; "b"] []) = Ok (Some false)
  /\ takes_no_positional_arguments (fn_of ["a"; "b"] ["l"])
     = Ok (Some false).
Proof. repeat split. Qed.

(** [singletest(setup=42)], [singletest(teardown=1337)] and
    [singletest(setup=lambda x: x)] raise [ValueError]. *)
Example uncorrect_fn :
  decorating_function PyNone (PyInt 42) PyNone (PyBool true) (pass_ "a")
  = Err (mkExn ValueError "42 isn't callable.") None
  /\ decorating_function PyNone PyNone (PyInt 1337) (PyBool true)
                         (pass_ "a")
     = Err (mkExn ValueError "1337 isn't callable.") None
  /\ decorating_function PyNone (fn_of ["x"] []) PyNone (PyBool true)
                         (pass_ "a")
     = Err (mkExn ValueError
              "<function f> isn't callable without positional arguments.")
           None.
Proof. repeat split. Qed.

(** [l == [True, None, True, True, False, False, False]] *)
Example swallow_class_states :
  states (Swallow.__iter__ swallow_class w0)
  = Some [Some true; None; Some true; Some true;
          Some false; Some false; Some false].
Proof. reflexivity. Qed.

(** Running that suite: three pass, one is not run, three fail. *)
Example swallow_class_run :
  snd (Swallow.run no_tokens "0.00" swallow_class true false w0)
  = Ok (3, 1, 3).
Proof. reflexivity. Qed.

End Replay.

(** * The protocol of [run], phase by phase *)

Import singletest Spec.

Lemma bind_Ok_inv {A B} (m : M A) (k : A -> M B) w w' b :
  bind m k w = (w', Ok b) ->
  exists a w1, m w = (w1, Ok a) /\ k a w1 = (w', Ok b).
Proof.
  unfold bind. destruct (m w) as [w1 [a | e tb]]; intros H.
  - exists a, w1. split; [reflexivity | exact H].
  - discriminate H.
Qed.

Lemma bind_Ok_intro {A B} (m : M A) (k : A -> M B) w w1 a :
  m w = (w1, Ok a) -> bind m k w = k a w1.
Proof. unfold bind. intros ->. reflexivity. Qed.

Lemma bind_Err_intro {A B} (m : M A) (k : A -> M B) w w1 e tb :
  m w = (w1, Err e tb) -> bind m k w = (w1, Err e tb).
Proof. unfold bind. intros ->. reflexivity. Qed.

(** The setup phase in terms of the step on [setup]. *)
Lemma run_setup_step t no_output w w1 (r : res unit) :
  step no_output (setup t) w = (w1, r) ->
  run_setup t no_output w =
  match r with
  | Ok _ => (w1, Ok None)
  | Err e tb =>
      if is_Exception (exn_type e)
      then (w1, Ok (Some (Some false, None, Some (sys_exc_info 185 e tb))))
      else (w1, Err e tb)
  end.
Proof.
  unfold step, run_setup. destruct (truthy (setup t)).
  - intros H. unfold try_except_Exception, bind. rewrite H.
    destruct r as [u | e tb]; [reflexivity |].
    destruct (is_Exception (exn_type e)); reflexivity.
  - unfold ret. intros H. injection H as <- <-. reflexivity.
Qed.

Lemma run_body_call t no_output w w1 (r : res unit) :
  call_quietly no_output (fn t) w = (w1, r) ->
  run_body t no_output w = (w1, body_record t r).
Proof.
  intros H. unfold run_body, try_except_Exception, bind, body_record.
  rewrite H. destruct r as [u | e tb].
  - destruct (truthy (expected t)); reflexivity.
  - destruct (is_Exception (exn_type e)); [| reflexivity].
    destruct (type_differs e (expected t)); reflexivity.
Qed.

Lemma run_teardown_step t no_output o w w1 (r : res unit) :
  step no_output (teardown t) w = (w1, r) ->
  run_teardown t no_output o w = (w1, teardown_record o r).
Proof.
  unfold step, run_teardown, teardown_record.
  destruct o as [[state reason] exc].
  destruct (truthy (teardown t)).
  - intros H. unfold try_except_Exception, bind. rewrite H.
    destruct r as [u | e tb]; [reflexivity |].
    destruct (is_Exception (exn_type e)); [| reflexivity].
    destruct reason, exc; reflexivity.
  - unfold ret. intros H. injection H as <- <-. reflexivity.
Qed.

(** [run] when the test is not gated out and its setup phase is over. *)
Lemma run_after_setup t no_output w w1 w2 w3 rb rt :
  truthy (run_if t) = true ->
  step no_output (setup t) w = (w1, Ok tt) ->
  call_quietly no_output (fn t) w1 = (w2, rb) ->
  step no_output (teardown t) w2 = (w3, rt) ->
  run t no_output w =
  match body_record t rb with
  | Ok o => (w3, teardown_record o rt)
  | Err e tb => (w2, Err e tb)
  end.
Proof.
  intros Hif Hs Hb Ht. unfold run. rewrite Hif. cbn [negb].
  rewrite (bind_Ok_intro _ _ _ _ _ (run_setup_step _ _ _ _ _ Hs)).
  pose proof (run_body_call _ _ _ _ _ Hb) as Hrb.
  destruct (body_record t rb) as [o | e tb].
  - rewrite (bind_Ok_intro _ _ _ _ _ Hrb).
    apply (run_teardown_step _ _ _ _ _ _ Ht).
  - apply (bind_Err_intro _ _ _ _ _ _ Hrb).
Qed.

(** The shape of every outcome that [run] returns. *)
Lemma run_outcome_shape t no_output w w' state reason exc :
  run t no_output w = (w', Ok (state, reason, exc)) ->
  match state with
  | None => reason = None /\ exc = None
  | Some true => reason = None /\ exc = None
  | Some false =>
      (reason <> None /\ exc = None) \/ (reason = None /\ exc <> None)
  end.
Proof.
  unfold run. destruct (truthy (run_if t)); cbn [negb].
  2: { unfold ret. intros H. injection H as _ <- <- <-. split; reflexivity. }
  destruct (step no_output (setup t) w) as [w1 rs] eqn:Hs.
  unfold bind at 1. rewrite (run_setup_step _ _ _ _ _ Hs).
  destruct rs as [u | e tb].
  - destruct (call_quietly no_output (fn t) w1) as [w2 rb] eqn:Hb.
    unfold bind. rewrite (run_body_call _ _ _ _ _ Hb).
    destruct (step no_output (teardown t) w2) as [w3 rt] eqn:Ht.
    destruct (body_record t rb) as [o | e tb] eqn:Ho; [| discriminate].
    rewrite (run_teardown_step _ _ _ _ _ _ Ht).
    assert (Hshape :
      o = (Some true, None, None)
      \/ (exists r, o = (Some false, Some r, None))
      \/ (exists ei, o = (Some false, None, Some ei))).
    { unfold body_record in Ho. destruct rb as [u' | e tb].
      - destruct (truthy (expected t)); injection Ho as <-; eauto.
      - destruct (is_Exception (exn_type e)); [| discriminate].
        destruct (type_differs e (expected t)); injection Ho as <-; eauto. }
    unfold teardown_record. intros H.
    destruct rt as [u' | e tb].
    + injection H as _ ->.
      destruct Hshape as [H | [[r H] | [ei H]]]; injection H as -> -> ->;
        [split; reflexivity | left | right]; split; congruence.
    + destruct (is_Exception (exn_type e)); [| discriminate].
      destruct Hshape as [-> | [[r ->] | [ei ->]]];
        injection H as _ <- <- <-;
        [right | left | right]; split; congruence.
  - destruct (is_Exception (exn_type e)); [| discriminate].
    unfold ret. intros H. injection H as _ <- <- <-.
    right. split; congruence.
Qed.

(** * The claims on [singletest.run] *)

Lemma contains_expected_name (K : pyclass) :
  contains (cls_name K)
           ("No exception was raised (expected "
            ++ expected_name (PyType K) ++ ").").
Proof.
  exists "No exception was raised (expected ", ").". reflexivity.
Qed.

Lemma type_differs_same e K :
  cls_id (exn_type e) = cls_id K -> type_differs e (PyType K) = false.
Proof.
  intros H. unfold type_differs, class_eqb. rewrite H, Nat.eqb_refl.
  reflexivity.
Qed.

Lemma type_differs_other e K :
  cls_id (exn_type e) <> cls_id K -> type_differs e (PyType K) = true.
Proof.
  intros H. unfold type_differs, class_eqb.
  apply Nat.eqb_neq in H. rewrite H. reflexivity.
Qed.

(** What the teardown phase leaves of an outcome that already records a
    failure, or when the teardown does not raise. *)
Lemma teardown_record_kept o rt :
  (rt = Ok tt \/ exists r, snd (fst o) = Some r \/ snd o <> None) ->
  (forall e tb, rt = Err e tb -> is_error e) ->
  teardown_record o rt = Ok o.
Proof.
  intros Hkeep Herr. unfold teardown_record.
  destruct rt as [u | e tb]; [reflexivity |].
  rewrite (Herr e tb eq_refl).
  destruct o as [[state [r |]] [ei |]]; try reflexivity.
  destruct Hkeep as [H | [r [H | H]]]; [discriminate | discriminate |].
  now contradiction H.
Qed.

(** C1. A test constructed with the expected kind [K], whose setup (if
    any) succeeded: when the body raises an error whose class is exactly
    [K], the same class object, the body step records success and, if the
    teardown does not fail, [run] returns [(True, None, None)]; when the
    body raises an error of another class, be it a subclass of [K] or a
    class with the name and the ancestors of [K], [run] returns [False]
    with [exc] the [exc_info] of that error; when the body raises nothing,
    [run] returns [False] with a [reason] that contains the name of [K]
    and no [exc].  Errors are the instances of classes derived from
    [Exception], which is what [run] catches; in the last two cases a
    teardown that raises is taken to raise an error as well. *)
Theorem run_expected_kind (t : testcase) (K : pyclass) (no_output : bool)
    (w w1 w2 w3 : world) (rb rt : res unit) :
  expected t = PyType K ->
  truthy (run_if t) = true ->
  step no_output (setup t) w = (w1, Ok tt) ->
  call_quietly no_output (fn t) w1 = (w2, rb) ->
  step no_output (teardown t) w2 = (w3, rt) ->
  (forall e tb, rb = Err e tb -> is_error e ->
     cls_id (exn_type e) = cls_id K ->
     run_body t no_output w1 = (w2, Ok (Some true, None, None))
     /\ (rt = Ok tt -> run t no_output w = (w3, Ok (Some true, None, None))))
  /\ (forall e tb, rb = Err e tb -> is_error e ->
        cls_id (exn_type e) <> cls_id K ->
        raises_errors_only (step no_output (teardown t)) w2 ->
        run t no_output w
        = (w3, Ok (Some false, None, Some (sys_exc_info 195 e tb))))
  /\ (rb = Ok tt ->
      raises_errors_only (step no_output (teardown t)) w2 ->
      exists reason,
        run t no_output w = (w3, Ok (Some false, Some reason, None))
        /\ contains (cls_name K) reason).
Proof.
  intros HK Hif Hs Hb Ht.
  pose proof (run_after_setup _ _ _ _ _ _ _ _ Hif Hs Hb Ht) as Hrun.
  pose proof (run_body_call _ _ _ _ _ Hb) as Hbody.
  unfold raises_errors_only. rewrite Ht.
  split; [| split].
  - intros e tb -> He Hsame. split.
    + rewrite Hbody. unfold body_record.
      rewrite He, HK, (type_differs_same _ _ Hsame). reflexivity.
    + intros ->. rewrite Hrun. unfold body_record.
      rewrite He, HK, (type_differs_same _ _ Hsame). reflexivity.
  - intros e tb -> He Hne Hrt. rewrite Hrun. unfold body_record.
    rewrite He, HK, (type_differs_other _ _ Hne).
    rewrite teardown_record_kept; [reflexivity | | ].
    + right. exists "". right. discriminate.
    + intros e' tb' ->. exact Hrt.
  - intros -> Hrt. eexists. split.
    + rewrite Hrun. unfold body_record. rewrite HK. cbn [truthy].
      rewrite teardown_record_kept; [reflexivity | | ].
      * right. eexists. left. reflexivity.
      * intros e' tb' ->. exact Hrt.
    + apply contains_expected_name.
Qed.

(** C2. A test whose teardown raises an error during [run] (the test is
    not gated out, its setup phase is over and the body phase has recorded
    the outcome [(state, reason, exc)]): when neither [reason] nor [exc]
    is recorded, [run] returns [False] with [exc] the [exc_info] of the
    error of the teardown; when one of them is recorded, [run] returns the
    recorded outcome unchanged. *)
Theorem run_teardown_raises (t : testcase) (no_output : bool)
    (w w1 w2 w3 : world) (state : option bool) (reason : option string)
    (exc : option exc_info) (e : exn) (tb : option traceback) :
  truthy (run_if t) = true ->
  step no_output (setup t) w = (w1, Ok tt) ->
  run_body t no_output w1 = (w2, Ok (state, reason, exc)) ->
  truthy (teardown t) = true ->
  call_quietly no_output (teardown t) w2 = (w3, Err e tb) ->
  is_error e ->
  (reason = None -> exc = None ->
     run t no_output w
     = (w3, Ok (Some false, None, Some (sys_exc_info 212 e tb))))
  /\ (reason <> None \/ exc <> None ->
      run t no_output w = (w3, Ok (state, reason, exc))).
Proof.
  intros Hif Hs Hbody Htd Hcall He.
  assert (Ht : step no_output (teardown t) w2 = (w3, Err e tb)).
  { unfold step. rewrite Htd. exact Hcall. }
  destruct (call_quietly no_output (fn t) w1) as [w2' rb] eqn:Hb.
  pose proof (run_body_call _ _ _ _ _ Hb) as Hbody'.
  rewrite Hbody in Hbody'. injection Hbody' as <- Hrec.
  pose proof (run_after_setup _ _ _ _ _ _ _ _ Hif Hs Hb Ht) as Hrun.
  rewrite <- Hrec in Hrun. unfold teardown_record in Hrun.
  rewrite He in Hrun. split.
  - intros -> ->. exact Hrun.
  - intros Hrecd. rewrite Hrun.
    destruct reason, exc; try reflexivity.
    destruct Hrecd as [H | H]; now contradiction H.
Qed.

(** C3. A test that is not gated out and whose setup raises an error:
    [run] returns [False] with [exc] the [exc_info] of that error and no
    [reason], in the state the setup left; the body and the teardown are
    not invoked: whatever they are, the result and the state are the
    same. *)
Theorem run_setup_raises (t : testcase) (no_output : bool)
    (w w1 : world) (e : exn) (tb : option traceback) :
  truthy (run_if t) = true ->
  truthy (setup t) = true ->
  call_quietly no_output (setup t) w = (w1, Err e tb) ->
  is_error e ->
  run t no_output w
  = (w1, Ok (Some false, None, Some (sys_exc_info 185 e tb)))
  /\ forall fn' teardown',
       run (mkTest (expected t) (setup t) teardown' (run_if t) fn')
           no_output w
       = run t no_output w.
Proof.
  intros Hif Hsetup Hcall He.
  assert (Hrun : forall t', run_if t' = run_if t -> setup t' = setup t ->
            run t' no_output w
            = (w1, Ok (Some false, None, Some (sys_exc_info 185 e tb)))).
  { intros t' Hi Hs. unfold run. rewrite Hi, Hif. cbn [negb].
    assert (Hst : step no_output (setup t') w = (w1, Err e tb)).
    { unfold step. rewrite Hs, Hsetup. exact Hcall. }
    unfold bind. rewrite (run_setup_step _ _ _ _ _ Hst), He. reflexivity. }
  split.
  - apply Hrun; reflexivity.
  - intros fn' teardown'. rewrite (Hrun t eq_refl eq_refl).
    apply Hrun; reflexivity.
Qed.

(** C6. Whatever [run] returns: with [state] [False], exactly one of
    [reason] and [exc] is set; with [state] [None] (the test was not
    run), neither is. *)
Theorem run_failed_or_skipped_shape (t : testcase) (no_output : bool)
    (w w' : world) (state : option bool) (reason : option string)
    (exc : option exc_info) :
  run t no_output w = (w', Ok (state, reason, exc)) ->
  (state = Some false ->
     (reason <> None /\ exc = None) \/ (reason = None /\ exc <> None))
  /\ (state = None -> reason = None /\ exc = None).
Proof.
  intros H. pose proof (run_outcome_shape _ _ _ _ _ _ _ H) as Hs.
  split; intros ->; exact Hs.
Qed.

(** * The capture scope *)

Import stdout_to_devnull.

(** With [hide] false, the scope is the computation inside it. *)
Lemma with_false_passthrough {A} (inner : M A) (w : world) :
  with_ false inner w = inner w.
Proof.
  unfold with_. cbn. destruct (inner w) as [w2 r]. reflexivity.
Qed.

(** With [hide] true, when the computation inside leaves a file bound to
    [sys.stdout]. *)
Lemma with_true_restores {A} (inner : M A) (w w2 : world) (r : res A) fd :
  inner (set_stdout (SFile (next_fd w)) (fst (open_devnull w))) = (w2, r) ->
  sys_stdout w2 = SFile fd ->
  with_ true inner w
  = (mkWorld (sys_stdout w) (next_fd w2) (fd :: closed w2) (out w2) (err w2),
     r).
Proof.
  intros Hin Hfd. unfold with_. cbn. cbn in Hin. rewrite Hin.
  unfold bind, close_stdout. rewrite Hfd. reflexivity.
Qed.

(** C9, as the code has it.  With [hide] true and a file bound to
    [sys.stdout] when the computation inside ends, the scope runs that
    computation on a fresh sink, closes the file bound at the end and
    leaves [sys.stdout] bound as it was before entry, whether the
    computation returned or raised, handing on its result.  With [hide]
    false the scope changes nothing: it is the computation inside, and
    [sys.stdout] is afterwards what that computation left. *)
Theorem scope_restores_or_passes {A} (inner : M A) (w : world) :
  (forall w2 r fd,
      inner (set_stdout (SFile (next_fd w)) (fst (open_devnull w)))
      = (w2, r) ->
      sys_stdout w2 = SFile fd ->
      sys_stdout (fst (with_ true inner w)) = sys_stdout w
      /\ snd (with_ true inner w) = r
      /\ closed (fst (with_ true inner w)) = fd :: closed w2
      /\ out (fst (with_ true inner w)) = out w2)
  /\ with_ false inner w = inner w.
Proof.
  split.
  - intros w2 r fd Hin Hfd.
    rewrite (with_true_restores _ _ _ _ _ Hin Hfd). cbn. auto.
  - apply with_false_passthrough.
Qed.

(** * Iterating over a suite *)

Lemma iter_tests_yields ts : forall w w' os,
  Swallow.iter_tests ts w = (w', Ok os) <-> yields false ts w os w'.
Proof.
  induction ts as [| tc ts IH]; intros w w' os; cbn [Swallow.iter_tests].
  - unfold ret. split.
    + intros H. injection H as <- <-. constructor.
    + intros H. inversion H. reflexivity.
  - split.
    + intros H.
      apply bind_Ok_inv in H as (o & w1 & Hrun & H).
      apply bind_Ok_inv in H as (os' & w2 & Hrest & H).
      unfold ret in H. injection H as <- <-.
      econstructor; [exact Hrun | apply IH; exact Hrest].
    + intros H. inversion H as [| tc' ts' wa w1 wb o os' Hrun Hrest]; subst.
      rewrite (bind_Ok_intro _ _ _ _ _ Hrun).
      apply IH in Hrest. rewrite (bind_Ok_intro _ _ _ _ _ Hrest).
      reflexivity.
Qed.

(** C4, as the code has it.  Iterating over a suite runs every
    registered case with [no_output] false, so that nothing is captured
    (the scope around each call is the call itself), threads the state
    from one case to the next without touching it in between, and yields
    the outcomes in registration order. *)
Theorem iter_yields_without_capture (self : Swallow.t) (w : world) :
  (forall os w',
      Swallow.__iter__ self w = (w', Ok os)
      <-> yields false (Swallow.tests self) w os w')
  /\ (forall f w1, call_quietly false f w1 = call f w1).
Proof.
  split.
  - intros os w'. apply iter_tests_yields.
  - intros f w1. apply with_false_passthrough.
Qed.

(** * Registration *)

(** On a Python function, and on a bound method of one, the validator
    answers [True] exactly when [getargspec] reports no parameter without
    a default. *)
Lemma takes_no_positional_arguments_function name required defaulted code :
  takes_no_positional_arguments (PyFunction name required defaulted code)
  = Ok (Some (match required with [] => true | _ :: _ => false end)).
Proof.
  unfold takes_no_positional_arguments, getargspec. do 2 f_equal.
  destruct defaulted as [| d ds]; destruct required as [| a rs];
    cbn [length app]; rewrite ?length_app; cbn [length];
    try (apply Z.eqb_eq; lia); apply Z.eqb_neq; lia.
Qed.

Lemma takes_no_positional_arguments_method name required defaulted code :
  takes_no_positional_arguments (PyMethod name required defaulted code)
  = Ok (Some (match required with [] => true | _ :: _ => false end)).
Proof.
  exact (takes_no_positional_arguments_function name required defaulted code).
Qed.

Lemma check_callable_result f :
  check_callable f = Ok tt
  \/ exists msg, check_callable f = Err (mkExn ValueError msg) None.
Proof.
  destruct f as [| b | n | s | c | name required defaulted code
                 | name code | repr truth [code |] differs
                 | name required defaulted code
                 | name required defaulted kwrequired code];
    unfold check_callable; cbn [is_None callable negb andb];
    rewrite ?takes_no_positional_arguments_function,
            ?takes_no_positional_arguments_method;
    try (destruct required); cbn; eauto.
Qed.

Lemma check_callable_rejected f :
  (exists e tb, check_callable f = Err e tb) <-> rejected f.
Proof.
  unfold rejected, requires_positional, undescribed. split.
  - intros (e & tb & H). unfold check_callable in H.
    destruct f as [| b | n | s | c | name required defaulted code
                   | name code | repr truth [code |] differs
                   | name required defaulted code
                   | name required defaulted kwrequired code];
      cbn [is_None callable negb andb] in H;
      rewrite ?takes_no_positional_arguments_function,
              ?takes_no_positional_arguments_method in H;
      try (split; [discriminate | left; reflexivity]);
      try discriminate H.
    + destruct required as [| a rs]; [discriminate H |].
      split; [discriminate | right; left; eauto 7].
    + destruct required as [| a rs]; [discriminate H |].
      split; [discriminate | right; left; eauto 7].
    + split; [discriminate | right; right; eauto 7].
  - intros [Hnone [Hcall | [(name & a & rs & ds & code & [-> | ->])
                           | (name & rs & ds & ks & code & ->)]]].
    + unfold check_callable. rewrite Hcall.
      destruct f; try (now contradiction Hnone); cbn; eauto.
    + unfold check_callable. cbn [is_None callable negb andb].
      rewrite takes_no_positional_arguments_function. eauto.
    + unfold check_callable. cbn [is_None callable negb andb].
      rewrite takes_no_positional_arguments_method. eauto.
    + cbn. eauto.
Qed.

(** What [decorating_function] does, by the refusals of its loop. *)
Lemma decorating_function_spec expected setup teardown run_if fn :
  (decorating_function expected setup teardown run_if fn
   = Ok (mkTest expected setup teardown run_if fn)
   /\ ~ (rejected fn \/ rejected setup \/ rejected teardown))
  \/ ((exists msg, decorating_function expected setup teardown run_if fn
                   = Err (mkExn ValueError msg) None)
      /\ (rejected fn \/ rejected setup \/ rejected teardown)).
Proof.
  unfold decorating_function.
  destruct (check_callable_result fn) as [Hf | [m Hf]]; rewrite Hf.
  2: { right. split; [eauto |]. left. apply check_callable_rejected. eauto. }
  destruct (check_callable_result setup) as [Hs | [m Hs]]; rewrite Hs.
  2: { right. split; [eauto |]. right. left.
       apply check_callable_rejected. eauto. }
  destruct (check_callable_result teardown) as [Ht | [m Ht]]; rewrite Ht.
  2: { right. split; [eauto |]. right. right.
       apply check_callable_rejected. eauto. }
  left. split; [reflexivity |].
  intros [H | [H | H]]; apply check_callable_rejected in H as (e & tb & H);
    congruence.
Qed.

(** C8.  The code breaks the claim on callables that need no argument.
    A bound method whose one parameter receives the instance, and a
    function without positional parameter that has an annotation or a
    keyword-only parameter with a default, are callable, and calling them
    without argument runs their code as it does for a plain function
    without parameters.  Yet constructing a test with either as body
    raises [ValueError], whatever the other arguments are: for the bound
    method [takes_no_positional_arguments] answers [False], since
    [getargspec] counts the parameter of the instance, and for the other
    the [ValueError] of [getargspec] itself, which only a [TypeError]
    clause guards, goes through. *)
Theorem registration_refuses_argumentless_callables
    (expected setup teardown run_if : pyval) (name self_ : string)
    (code : world -> world * result) (w : world) :
  (callable (PyMethod name [self_] [] code) = true
   /\ call (PyMethod name [self_] [] code) w
      = call (PyFunction name [] [] code) w
   /\ takes_no_positional_arguments (PyMethod name [self_] [] code)
      = Ok (Some false)
   /\ decorating_function expected setup teardown run_if
                          (PyMethod name [self_] [] code)
      = Err (mkExn ValueError
               (("<bound method " ++ name ++ ">")
                ++ " isn't callable without positional arguments."))
            None)
  /\ (callable (PyFunctionKw name [] [] [] code) = true
      /\ call (PyFunctionKw name [] [] [] code) w
         = call (PyFunction name [] [] code) w
      /\ decorating_function expected setup teardown run_if
                             (PyFunctionKw name [] [] [] code)
         = Err (mkExn ValueError
                  "Function has keyword-only arguments or annotations, use getfullargspec() API which can support them")
               None).
Proof.
  split; (split; [reflexivity |]); (split; [reflexivity |]).
  - split; reflexivity.
  - reflexivity.
Qed.

(** * The decorator [Swallow.__call__] *)

(** A test that is registered with [run_if] true is never reported as
    not run. *)
Lemma run_not_skipped t no_output w w' o :
  truthy (run_if t) = true ->
  run t no_output w = (w', Ok o) ->
  fst (fst o) <> None.
Proof.
  intros Hif. unfold run. rewrite Hif. cbn [negb]. intros H.
  apply bind_Ok_inv in H as (early & w1 & Hs & H).
  destruct o as [[state reason] exc]. cbn [fst].
  assert (Hbody : forall wa wb st r x,
            run_body t no_output wa = (wb, Ok (st, r, x)) -> st <> None).
  { intros wa wb st r x Hb.
    destruct (call_quietly no_output (fn t) wa) as [wc rb] eqn:Hc.
    rewrite (run_body_call _ _ _ _ _ Hc) in Hb. injection Hb as _ Hb.
    unfold body_record in Hb. destruct rb as [u | e tb].
    - destruct (truthy (expected t)); injection Hb as <- _ _; discriminate.
    - destruct (is_Exception (exn_type e)); [| discriminate].
      destruct (type_differs e (expected t)); injection Hb as <- _ _;
        discriminate. }
  destruct early as [o |].
  - unfold ret in H. injection H as _ ->.
    destruct (step no_output (setup t) w) as [wa rs] eqn:Hst.
    rewrite (run_setup_step _ _ _ _ _ Hst) in Hs.
    destruct rs as [u | e tb]; [discriminate |].
    destruct (is_Exception (exn_type e)); [| discriminate].
    injection Hs as _ <- _ _. discriminate.
  - apply bind_Ok_inv in H as ([[st r] x] & w2 & Hb & H).
    apply Hbody in Hb.
    destruct (step no_output (teardown t) w2) as [w3 rt] eqn:Ht.
    rewrite (run_teardown_step _ _ _ _ _ _ Ht) in H.
    injection H as _ H. unfold teardown_record in H.
    destruct rt as [u | e tb].
    + injection H as <- _ _. exact Hb.
    + destruct (is_Exception (exn_type e)); [| discriminate].
      destruct r, x; injection H as <- _ _; try exact Hb; discriminate.
Qed.

(** C10, as the code has it.  A callable [c] in the place of the run
    condition is taken as the body: the call never returns a gating
    decorator.  It constructs the test of [c] with the defaults of the
    suite, no expected kind and [run_if] true: when the validation
    refuses [c] or a default of the suite, the registration error is
    raised; otherwise the test is appended to the suite and returned, and
    [run] never reports it as not run.  A value that is not callable
    gives a decorator, and the tests it registers carry that value as
    their [run_if]: they are not run when it is false. *)
Theorem call_takes_callable_as_body (self : Swallow.t) (c : pyval) :
  callable c = true ->
  ((rejected c \/ rejected (Swallow.setup self)
    \/ rejected (Swallow.teardown self)) ->
   exists msg, Swallow.__call__ self c = Err (mkExn ValueError msg) None)
  /\ (~ (rejected c \/ rejected (Swallow.setup self)
         \/ rejected (Swallow.teardown self)) ->
      let t := mkTest PyNone (Swallow.setup self) (Swallow.teardown self)
                      (PyBool true) c in
      Swallow.__call__ self c
      = Ok (Swallow.append t self, Swallow.Decorated t)
      /\ forall no_output w w' o,
           run t no_output w = (w', Ok o) -> fst (fst o) <> None)
  /\ (forall self' wr, Swallow.__call__ self c
                       <> Ok (self', Swallow.Decorator wr))
  /\ (forall v, callable v = false ->
        exists wr,
          Swallow.__call__ self v = Ok (self, Swallow.Decorator wr)
          /\ forall f s s' t,
               wr f s = Ok (s', t) ->
               run_if t = v /\ fn t = f
               /\ Swallow.tests s' = (Swallow.tests s ++ [t])%list
               /\ (truthy v = false ->
                   forall no_output w,
                     run t no_output w = (w, Ok (None, None, None)))).
Proof.
  intros Hc. unfold Swallow.__call__. rewrite Hc.
  pose proof (decorating_function_spec PyNone (Swallow.setup self)
                (Swallow.teardown self) (PyBool true) c)
    as [[Hok Hno] | [[msg Herr] Hyes]].
  - rewrite Hok. repeat split.
    + intros H. contradiction.
    + intros no_output w w' o. apply run_not_skipped. reflexivity.
    + intros self' wr. discriminate.
    + intros v Hv. rewrite Hv. eexists. split; [reflexivity |].
      intros f s s' t H. unfold Swallow.wrapper in H.
      destruct (decorating_function_spec PyNone (Swallow.setup s)
                  (Swallow.teardown s) v f) as [[Hd _] | [[m Hd] _]];
        rewrite Hd in H; [| discriminate].
      injection H as <- <-. cbn. repeat split.
      intros Hv' no_output w. unfold run. cbn. rewrite Hv'. reflexivity.
  - rewrite Herr. repeat split.
    + intros _. eauto.
    + contradiction.
    + contradiction.
    + intros self' wr. discriminate.
    + intros v Hv. rewrite Hv. eexists. split; [reflexivity |].
      intros f s s' t H. unfold Swallow.wrapper in H.
      destruct (decorating_function_spec PyNone (Swallow.setup s)
                  (Swallow.teardown s) v f) as [[Hd _] | [[m Hd] _]];
        rewrite Hd in H; [| discriminate].
      injection H as <- <-. cbn. repeat split.
      intros Hv' no_output w. unfold run. cbn. rewrite Hv'. reflexivity.
Qed.

(** * The expansion of the failing line *)

Section ExpanderFacts.

Variable tokenize : string -> list token * option exn.

Lemma get_meaningful_expression_no_source tb e t :
  getsourcelines (innermost tb) = Err e t ->
  get_meaningful_expression tokenize (Some tb) = Err e t.
Proof.
  unfold get_meaningful_expression.
  destruct (innermost tb) as [[name lv gv src] ln nx].
  intros H. rewrite H. reflexivity.
Qed.

Lemma get_meaningful_expression_token_error tb line e :
  source_line tb = Some line ->
  snd (tokenize (dedent line)) = Some e ->
  exists e' t', get_meaningful_expression tokenize (Some tb) = Err e' t'.
Proof.
  unfold source_line, get_meaningful_expression.
  destruct (innermost tb) as [[name lv gv src] ln nx].
  destruct (getsourcelines _) as [[source lineno] | e0 t0]; [| discriminate].
  intros -> Htok.
  destruct (tokenize (dedent line)) as [toks failure]. cbn in Htok. subst.
  destruct (expand_tokens lv gv toks (dedent line, "")) as [[rest ex] | e1 t1];
    eauto.
Qed.

(** C5, as the code has it.  [print_exception] first writes the stack
    trace to [sys.stderr], the same lines whether the expansion is asked
    for or not.  There is no fallback in the expansion: when the source
    of the innermost frame cannot be retrieved, or when the tokenizer
    fails on the line, [get_meaningful_expression] raises and the error
    leaves [print_exception], after the stack trace and with nothing else
    written. *)
Theorem expander_failure_propagates (type : pyclass) (value : exn)
    (fr : frame) (ln : Z) (tb : traceback) (w : world) :
  let shown := mkWorld (sys_stdout w) (next_fd w) (closed w) (out w)
                 (err w ++ format_exception type value (Some tb))%list in
  print_exception tokenize type value (Tb fr ln (Some tb)) false w
  = (shown, Ok tt)
  /\ (forall e t,
        getsourcelines (innermost tb) = Err e t ->
        print_exception tokenize type value (Tb fr ln (Some tb)) true w
        = (shown, Err e t))
  /\ (forall line e,
        source_line tb = Some line ->
        snd (tokenize (dedent line)) = Some e ->
        exists e' t',
          print_exception tokenize type value (Tb fr ln (Some tb)) true w
          = (shown, Err e' t')).
Proof.
  cbv zeta. unfold print_exception, bind, traceback_print_exception.
  repeat split.
  - intros e t H.
    rewrite (get_meaningful_expression_no_source _ _ _ H). reflexivity.
  - intros line e Hl Ht.
    destruct (get_meaningful_expression_token_error _ _ _ Hl Ht)
      as (e' & t' & H).
    exists e', t'. rewrite H. reflexivity.
Qed.

End ExpanderFacts.

(** * Running a suite *)

Lemma tally_cons state o os :
  tally state (o :: os)
  = (if state_eqb (fst (fst o)) state then 1 else 0) + tally state os.
Proof.
  unfold tally. cbn [filter]. destruct (state_eqb (fst (fst o)) state);
    reflexivity.
Qed.

Lemma tally_total os :
  tally (Some true) os + tally None os + tally (Some false) os = length os.
Proof.
  induction os as [| [[[[|] |] r] x] os IH]; [reflexivity | | |];
    rewrite !tally_cons; cbn [fst state_eqb Bool.eqb length]; lia.
Qed.

Lemma ret_Ok_inv {A} (a b : A) w w' : ret a w = (w', Ok b) -> w' = w /\ b = a.
Proof. unfold ret. intros H. injection H as <- <-. split; reflexivity. Qed.

Section RunFacts.

Variable tokenize : string -> list token * option exn.

(** The counts that the loop returns: the counts it started from, plus
    one per case, in the slot of the state that the case returned. *)
Lemma run_tests_tally ts no_output expand_errors :
  forall passed not_run failed last w w' passed' not_run' failed',
    Swallow.run_tests tokenize ts no_output expand_errors
                      (passed, not_run, failed) last w
    = (w', Ok (passed', not_run', failed')) ->
    exists os,
      Forall2 (fun t o => exists wa wb, run t no_output wa = (wb, Ok o)) ts os
      /\ passed' = passed + tally (Some true) os
      /\ not_run' = not_run + tally None os
      /\ failed' = failed + tally (Some false) os.
Proof.
  induction ts as [| tc ts IH];
    intros passed not_run failed last w w' passed' not_run' failed' H.
  - cbn in H. apply ret_Ok_inv in H as [_ H]. injection H as -> -> ->.
    exists []. cbn. repeat split; [constructor | lia ..].
  - cbn [Swallow.run_tests] in H.
    apply bind_Ok_inv in H as (u & w1 & _ & H).
    apply bind_Ok_inv in H as ([[state reason] exc] & w2 & Hrun & H).
    apply bind_Ok_inv in H as ([[p1 s1] f1] & w3 & Hcount & H).
    apply IH in H as (os & Hos & -> & -> & ->).
    exists ((state, reason, exc) :: os).
    split; [constructor; [eauto | exact Hos] |].
    rewrite !tally_cons. cbn [fst].
    destruct state as [[|] |].
    + apply bind_Ok_inv in Hcount as (u1 & w4 & _ & Hc).
      apply ret_Ok_inv in Hc as [_ Hc]. injection Hc as -> -> ->.
      cbn. lia.
    + apply bind_Ok_inv in Hcount as (u1 & w4 & _ & Hc).
      apply bind_Ok_inv in Hc as (u2 & w5 & _ & Hc).
      apply ret_Ok_inv in Hc as [_ Hc]. injection Hc as -> -> ->.
      cbn. lia.
    + apply bind_Ok_inv in Hcount as (u1 & w4 & _ & Hc).
      apply ret_Ok_inv in Hc as [_ Hc]. injection Hc as -> -> ->.
      cbn. lia.
Qed.

Lemma write_usable s w :
  stdout_usable w = true ->
  exists w', write s w = (w', Ok tt) /\ stdout_usable w' = true.
Proof.
  unfold stdout_usable, write. destruct (sys_stdout w) as [| fd | id] eqn:Hs.
  - intros _. exists w. rewrite Hs. auto.
  - intros H. apply andb_prop in H as [Hlt Hopen].
    apply negb_true_iff in Hopen. rewrite Hopen.
    eexists. split; [reflexivity |].
    cbn [sys_stdout next_fd closed]. rewrite Hlt, Hopen. reflexivity.
  - discriminate.
Qed.

Lemma print_exception_plain_usable type value tb w :
  stdout_usable w = true ->
  exists w', print_exception tokenize type value tb false w = (w', Ok tt)
             /\ stdout_usable w' = true.
Proof.
  intros H. destruct tb as [fr ln nx]. eexists. split; [reflexivity |].
  exact H.
Qed.

(** A reason that [run] returns is never the empty string. *)
Lemma run_reason_not_empty t no_output w w' state exc :
  run t no_output w <> (w', Ok (state, Some "", exc)).
Proof.
  unfold run. destruct (truthy (run_if t)); cbn [negb]; [| discriminate].
  intros H. apply bind_Ok_inv in H as (early & w1 & Hs & H).
  destruct (step no_output (setup t) w) as [wa rs] eqn:Hst.
  rewrite (run_setup_step _ _ _ _ _ Hst) in Hs.
  destruct early as [o |].
  - apply ret_Ok_inv in H as [_ H]. subst o.
    destruct rs as [u | e tb]; [discriminate |].
    destruct (is_Exception (exn_type e)); discriminate.
  - apply bind_Ok_inv in H as ([[st r] x] & w2 & Hb & H).
    destruct (call_quietly no_output (fn t) w1) as [wc rb] eqn:Hc.
    rewrite (run_body_call _ _ _ _ _ Hc) in Hb. injection Hb as _ Hb.
    destruct (step no_output (teardown t) w2) as [w3 rt] eqn:Ht.
    rewrite (run_teardown_step _ _ _ _ _ _ Ht) in H. injection H as _ H.
    assert (Hr : r <> Some "").
    { unfold body_record in Hb. destruct rb as [u | e tb].
      - destruct (truthy (expected t)); injection Hb as _ <- _; discriminate.
      - destruct (is_Exception (exn_type e)); [| discriminate].
        destruct (type_differs e (expected t)); injection Hb as _ <- _;
          discriminate. }
    unfold teardown_record in H. destruct rt as [u | e tb].
    + injection H as _ H _. contradiction.
    + destruct (is_Exception (exn_type e)); [| discriminate].
      destruct r, x; congruence.
Qed.

(** The loop returns when every case does, leaving [sys.stdout] usable,
    and no expansion is asked for. *)
Lemma run_tests_returns ts no_output :
  Forall (well_behaved no_output) ts ->
  forall counts last w,
    stdout_usable w = true ->
    exists w' counts',
      Swallow.run_tests tokenize ts no_output false counts last w
      = (w', Ok counts')
      /\ stdout_usable w' = true.
Proof.
  induction 1 as [| tc ts Htc _ IH]; intros [[passed not_run] failed] last w Hw.
  - cbn. unfold ret. eauto.
  - cbn [Swallow.run_tests].
    destruct (write_usable ("Testing " ++ Swallow.test_name tc ++ ": ") _ Hw)
      as (w1 & Hp & Hw1).
    unfold print_noend. rewrite (bind_Ok_intro _ _ _ _ _ Hp).
    destruct (Htc w1 Hw1) as (w2 & [[state reason] exc] & Hrun & Hw2).
    rewrite (bind_Ok_intro _ _ _ _ _ Hrun).
    pose proof (run_outcome_shape _ _ _ _ _ _ _ Hrun) as Hshape.
    destruct state as [[|] |].
    + destruct (write_usable ("PASS" ++ nl) _ Hw2) as (w3 & Hp3 & Hw3).
      unfold print. unfold bind at 1. unfold bind at 1. rewrite Hp3.
      cbn [ret]. apply IH. exact Hw3.
    + destruct (write_usable ("FAIL" ++ nl) _ Hw2) as (w3 & Hp3 & Hw3).
      unfold print. unfold bind at 1. unfold bind at 1. rewrite Hp3.
      destruct reason as [[| c r] |].
      * exfalso. exact (run_reason_not_empty _ _ _ _ _ _ Hrun).
      * unfold bind at 1. cbn [print_stderr ret]. apply IH. exact Hw3.
      * destruct exc as [ei |].
        2: { destruct Hshape as [[Hn _] | [_ Hn]]; now contradiction Hn. }
        destruct (print_exception_plain_usable (ei_type ei) (ei_value ei)
                    (ei_tb ei) _ Hw3) as (w4 & Hp4 & Hw4).
        unfold bind at 1. rewrite Hp4. cbn [ret]. apply IH. exact Hw4.
    + destruct (write_usable ("NOT RUN" ++ nl) _ Hw2) as (w3 & Hp3 & Hw3).
      unfold print. unfold bind at 1. unfold bind at 1. rewrite Hp3.
      cbn [ret]. apply IH. exact Hw3.
Qed.

Variable elapsed : string.

(** C7. The counts that [Swallow.run] returns: every registered case,
    in order, adds one to the count of the state that its [run]
    returned, so that the three counts add up to the number of cases.
    And [Swallow.run] does return them when every case returns from its
    [run] leaving [sys.stdout] usable, [sys.stdout] is usable at the
    start and no expansion of errors is asked for. *)
Theorem suite_run_counts (self : Swallow.t) (no_output expand_errors : bool)
    (w : world) :
  (forall w' passed not_run failed,
      Swallow.run tokenize elapsed self no_output expand_errors w
      = (w', Ok (passed, not_run, failed)) ->
      exists os,
        Forall2 (fun t o => exists wa wb, run t no_output wa = (wb, Ok o))
                (Swallow.tests self) os
        /\ passed = tally (Some true) os
        /\ not_run = tally None os
        /\ failed = tally (Some false) os
        /\ passed + not_run + failed = length (Swallow.tests self))
  /\ (expand_errors = false ->
      stdout_usable w = true ->
      Forall (well_behaved no_output) (Swallow.tests self) ->
      exists w' counts,
        Swallow.run tokenize elapsed self no_output expand_errors w
        = (w', Ok counts)).
Proof.
  split.
  - intros w' passed not_run failed H. unfold Swallow.run, timer in H.
    apply bind_Ok_inv in H as ([[p s] f] & w1 & H & Hret).
    apply bind_Ok_inv in Hret as (u & w2 & _ & Hret).
    apply ret_Ok_inv in Hret as [_ Hret]. injection Hret as -> -> ->.
    apply bind_Ok_inv in H as ([[p1 s1] f1] & w3 & Hloop & H).
    apply bind_Ok_inv in H as (u1 & w4 & _ & H).
    apply bind_Ok_inv in H as (u2 & w5 & _ & H).
    apply ret_Ok_inv in H as [_ H]. injection H as -> -> ->.
    apply run_tests_tally in Hloop as (os & Hos & -> & -> & ->).
    exists os. repeat split; try exact Hos.
    cbn [plus]. rewrite tally_total. symmetry.
    clear -Hos. induction Hos; cbn [length]; congruence.
  - intros -> Hw Hall. unfold Swallow.run, timer.
    destruct (run_tests_returns _ _ Hall (0, 0, 0) None w Hw)
      as (w1 & [[p s] f] & Hloop & Hw1).
    destruct (write_usable ("" ++ nl) _ Hw1) as (w2 & Hp2 & Hw2).
    destruct (write_usable
                (Swallow.summary (length (Swallow.tests self)) p s f ++ nl)
                _ Hw2) as (w3 & Hp3 & Hw3).
    destruct (write_usable (("Executed in " ++ elapsed ++ " seconds.") ++ nl)
                           _ Hw3) as (w4 & Hp4 & Hw4).
    exists w4, (p, s, f).
    unfold bind at 1. unfold bind at 1. rewrite Hloop.
    unfold print. unfold bind at 1. rewrite Hp2.
    unfold bind at 1. rewrite Hp3. cbn [ret].
    unfold bind at 1. rewrite Hp4. reflexivity.
Qed.

End RunFacts.

(** * The claims at concrete inputs *)

Import Inputs.

Lemma run_expected_kind_witness :
  (run_body test_b true w0
   = (fst (call_quietly true (div0 "b") w0), Ok (Some true, None, None))
   /\ run test_b true w0
      = (fst (call_quietly true (div0 "b") w0), Ok (Some true, None, None)))
  /\ run test_other true w0
     = (fst (call_quietly true (div0 "f") w0),
        Ok (Some false, None,
            Some (sys_exc_info 195 zero_division (tb_in "f"))))
  /\ (exists reason,
        run test_g true w0
        = (fst (call_quietly true (pass_ "g") w0),
           Ok (Some false, Some reason, None))
        /\ contains "TypeError" reason)
  /\ run test_namesake true w0
     = (fst (call_quietly true (fn test_namesake) w0),
        Ok (Some false, None,
            Some (sys_exc_info 195 (mkExn locale_Error "x")
                    (Some (Tb (user_frame "n" "    raise locale.Error('x')")
                              1 None)))))
  /\ run test_subclass true w0
     = (fst (call_quietly true (fn test_subclass) w0),
        Ok (Some false, None,
            Some (sys_exc_info 195 (mkExn csv_SubError "x")
                    (Some (Tb (user_frame "s" "    raise SubError('x')")
                              1 None))))).
Proof.
  split; [| split; [| split; [| split]]].
  - destruct (run_expected_kind test_b ZeroDivisionError true w0 w0
                (fst (call_quietly true (div0 "b") w0))
                (fst (call_quietly true (div0 "b") w0))
                (Err zero_division (tb_in "b")) (Ok tt)
                eq_refl eq_refl eq_refl eq_refl eq_refl) as (Ha & _ & _).
    destruct (Ha zero_division (tb_in "b") eq_refl eq_refl eq_refl)
      as [Hbody Hrun].
    split; [exact Hbody | exact (Hrun eq_refl)].
  - destruct (run_expected_kind test_other TypeError true w0 w0
                (fst (call_quietly true (div0 "f") w0))
                (fst (call_quietly true (div0 "f") w0))
                (Err zero_division (tb_in "f")) (Ok tt)
                eq_refl eq_refl eq_refl eq_refl eq_refl) as (_ & Hb & _).
    apply (Hb zero_division (tb_in "f") eq_refl eq_refl).
    + discriminate.
    + exact I.
  - destruct (run_expected_kind test_g TypeError true w0 w0
                (fst (call_quietly true (pass_ "g") w0))
                (fst (call_quietly true (pass_ "g") w0))
                (Ok tt) (Ok tt)
                eq_refl eq_refl eq_refl eq_refl eq_refl) as (_ & _ & Hc).
    exact (Hc eq_refl I).
  - destruct (run_expected_kind test_namesake csv_Error true w0 w0
                (fst (call_quietly true (fn test_namesake) w0))
                (fst (call_quietly true (fn test_namesake) w0))
                (Err (mkExn locale_Error "x")
                     (Some (Tb (user_frame "n" "    raise locale.Error('x')")
                               1 None)))
                (Ok tt)
                eq_refl eq_refl eq_refl eq_refl eq_refl) as (_ & Hb & _).
    apply (Hb _ _ eq_refl eq_refl).
    + discriminate.
    + exact I.
  - destruct (run_expected_kind test_subclass csv_Error true w0 w0
                (fst (call_quietly true (fn test_subclass) w0))
                (fst (call_quietly true (fn test_subclass) w0))
                (Err (mkExn csv_SubError "x")
                     (Some (Tb (user_frame "s" "    raise SubError('x')")
                               1 None)))
                (Ok tt)
                eq_refl eq_refl eq_refl eq_refl eq_refl) as (_ & Hb & _).
    apply (Hb _ _ eq_refl eq_refl).
    + discriminate.
    + exact I.
Defined.

Lemma run_teardown_raises_witness :
  run test_teardown true w0
  = (fst (call_quietly true (div0 "td")
            (fst (call_quietly true (pass_ "a") w0))),
     Ok (Some false, None,
         Some (sys_exc_info 212 zero_division (tb_in "td"))))
  /\ run test_both true w0
     = (fst (call_quietly true (div0 "td")
               (fst (call_quietly true (div0 "e") w0))),
        Ok (Some false, None,
            Some (sys_exc_info 195 zero_division (tb_in "e")))).
Proof.
  split.
  - destruct (run_teardown_raises test_teardown true w0 w0
                (fst (call_quietly true (pass_ "a") w0))
                (fst (call_quietly true (div0 "td")
                        (fst (call_quietly true (pass_ "a") w0))))
                (Some true) None None zero_division (tb_in "td")
                eq_refl eq_refl eq_refl eq_refl eq_refl eq_refl)
      as [Hfirst _].
    exact (Hfirst eq_refl eq_refl).
  - destruct (run_teardown_raises test_both true w0 w0
                (fst (call_quietly true (div0 "e") w0))
                (fst (call_quietly true (div0 "td")
                        (fst (call_quietly true (div0 "e") w0))))
                (Some false) None
                (Some (sys_exc_info 195 zero_division (tb_in "e")))
                zero_division (tb_in "td")
                eq_refl eq_refl eq_refl eq_refl eq_refl eq_refl)
      as [_ Hkept].
    apply Hkept. right. discriminate.
Defined.

Lemma run_setup_raises_witness :
  run test_c true w0
  = (fst (call_quietly true int_empty w0),
     Ok (Some false, None, Some (sys_exc_info 185 int_error tb_lambda)))
  /\ run (mkTest (PyType ValueError) int_empty (div0 "td") (PyBool true)
                 (div0 "e")) true w0
     = run test_c true w0.
Proof.
  destruct (run_setup_raises test_c true w0
              (fst (call_quietly true int_empty w0)) int_error tb_lambda
              eq_refl eq_refl eq_refl eq_refl) as [Hrun Hany].
  split; [exact Hrun | exact (Hany (div0 "e") (div0 "td"))].
Defined.

Lemma run_failed_or_skipped_shape_witness :
  ((Some "No exception was raised (expected TypeError)." <> None
    /\ @None exc_info = None)
   \/ (Some "No exception was raised (expected TypeError)." = None
       /\ @None exc_info <> None))
  /\ (@None string = None /\ @None exc_info = None).
Proof.
  split.
  - exact (proj1 (run_failed_or_skipped_shape test_g true w0
                    (fst (run test_g true w0)) (Some false)
                    (Some "No exception was raised (expected TypeError).")
                    None eq_refl) eq_refl).
  - exact (proj2 (run_failed_or_skipped_shape
                    (mkTest PyNone PyNone PyNone (PyBool false) (pass_ "b"))
                    true w0 w0 None None None eq_refl) eq_refl).
Defined.

(** C4 fails as it is stated: what the one case of [noisy_suite] prints
    reaches handle 0, the file that was [sys.stdout] when the iteration
    began, while the traversal with captured output would have sent it to
    the sink on handle 1. *)
Lemma iter_output_not_captured :
  sys_stdout w0 = SFile 0
  /\ out (fst (Swallow.__iter__ noisy_suite w0)) = [(0, "hello" ++ nl)]
  /\ out (fst (iter_captured (Swallow.tests noisy_suite) w0))
     = [(1, "hello" ++ nl)]
  /\ Swallow.__iter__ noisy_suite w0
     <> iter_captured (Swallow.tests noisy_suite) w0.
Proof.
  repeat split.
  intros H. apply (f_equal (fun r => out (fst r))) in H.
  vm_compute in H. discriminate H.
Qed.

Lemma iter_yields_without_capture_witness :
  yields false (Swallow.tests noisy_suite) w0
         [(Some true, None, None)]
         (fst (Swallow.__iter__ noisy_suite w0))
  /\ call_quietly false (printing "noisy" "hello") w0
     = call (printing "noisy" "hello") w0.
Proof.
  destruct (iter_yields_without_capture noisy_suite w0) as [Hiff Hpass].
  split.
  - apply (proj1 (Hiff _ _)). reflexivity.
  - apply Hpass.
Defined.

(** C9 fails as it is stated: with [hide] false, a computation that
    rebinds [sys.stdout] leaves it rebound when the scope is over. *)
Lemma scope_passthrough_keeps_rebinding :
  sys_stdout w0 = SFile 0
  /\ sys_stdout (fst (with_ false rebinding w0)) = SFile 1
  /\ sys_stdout (fst (with_ false rebinding w0)) <> sys_stdout w0.
Proof. repeat split. discriminate. Qed.

Lemma scope_restores_or_passes_witness :
  (sys_stdout (fst (with_ true print_then_raise w0)) = sys_stdout w0
   /\ snd (with_ true print_then_raise w0)
      = Err (mkExn ValueError "no") None
   /\ closed (fst (with_ true print_then_raise w0)) = [1]
   /\ out (fst (with_ true print_then_raise w0)) = [(1, "x" ++ nl)])
  /\ with_ false print_then_raise w0 = print_then_raise w0.
Proof.
  destruct (scope_restores_or_passes print_then_raise w0) as [Hhide Hpass].
  split; [| exact Hpass].
  exact (Hhide (mkWorld (SFile 1) 2 [] [(1, "x" ++ nl)] [])
               (Err (mkExn ValueError "no") None) 1 eq_refl eq_refl).
Defined.

(** With [hide] true and an object without [close] bound to [sys.stdout]
    when the computation ends, [__exit__] raises before it restores. *)
Example scope_close_fails :
  with_ true (fun w => (set_stdout (SOther 9) w, Ok tt)) w0
  = (mkWorld (SOther 9) 2 [] [] [],
     Err (mkExn AttributeError "object has no attribute 'close'") None).
Proof. reflexivity. Qed.

(** C5 fails as it is stated: on a failure raised in code without
    source, [print_exception] raises [OSError]. *)
Lemma print_exception_raises_without_source :
  snd (print_exception no_tokens ZeroDivisionError zero_division
         (Tb run_frame 195 (Some no_source_tb)) true w0)
  = Err (mkExn OSError "could not get source code") None
  /\ snd (print_exception tokenize_table ZeroDivisionError zero_division
            (Tb run_frame 195 (Some one_line_tb)) true w0)
     = Err (mkExn TokenError "EOF in multi-line statement") None.
Proof. split; reflexivity. Qed.

Lemma expander_failure_propagates_witness :
  print_exception no_tokens ZeroDivisionError zero_division
    (Tb run_frame 195 (Some no_source_tb)) true w0
  = (mkWorld (SFile 0) 1 [] []
       ["Traceback (most recent call last):"; "  line 2, in e";
        "ZeroDivisionError: integer division or modulo by zero"],
     Err (mkExn OSError "could not get source code") None)
  /\ exists e' t',
       print_exception tokenize_table ZeroDivisionError zero_division
         (Tb run_frame 195 (Some one_line_tb)) true w0
       = (mkWorld (SFile 0) 1 [] []
            ["Traceback (most recent call last):"; "  line 1, in f";
             "ZeroDivisionError: integer division or modulo by zero"],
          Err e' t').
Proof.
  split.
  - destruct (expander_failure_propagates no_tokens ZeroDivisionError
                zero_division run_frame 195 no_source_tb w0)
      as (_ & Hsrc & _).
    exact (Hsrc _ _ eq_refl).
  - destruct (expander_failure_propagates tokenize_table ZeroDivisionError
                zero_division run_frame 195 one_line_tb w0)
      as (_ & _ & Htok).
    exact (Htok ("    assert g(a," ++ nl)
                (mkExn TokenError "EOF in multi-line statement")
                eq_refl eq_refl).
Defined.

(** An expansion that succeeds: the local [x] and the global [y] are
    replaced by their values. *)
Example expansion_of_assert :
  get_meaningful_expression tokenize_table (Some assert_tb)
  = Ok ("assert x == y", "assert 1 == 2").
Proof. reflexivity. Qed.

(** The error of the expansion leaves [Swallow.run] as well. *)
Example suite_run_raises_on_expansion :
  snd (Swallow.run tokenize_table "0.00" fragile_suite true true w0)
  = Err (mkExn TokenError "EOF in multi-line statement") None.
Proof. reflexivity. Qed.

Lemma small_suite_well_behaved :
  Forall (well_behaved false) (Swallow.tests small_suite).
Proof.
  repeat constructor; intros w H; eexists; eexists;
    (split; [reflexivity | exact H]).
Qed.

Lemma suite_run_counts_witness :
  (exists os,
      Forall2 (fun t o => exists wa wb, run t true wa = (wb, Ok o))
              (Swallow.tests swallow_class) os
      /\ 3 = tally (Some true) os
      /\ 1 = tally None os
      /\ 3 = tally (Some false) os
      /\ 3 + 1 + 3 = length (Swallow.tests swallow_class))
  /\ exists w' counts,
       Swallow.run no_tokens "0.00" small_suite false false w0
       = (w', Ok counts).
Proof.
  split.
  - assert (Hrun : Swallow.run no_tokens "0.00" swallow_class true false w0
                   = (swallow_class_after, Ok (3, 1, 3)))
      by (vm_compute; reflexivity).
    exact (proj1 (suite_run_counts no_tokens "0.00" swallow_class true false
                    w0) swallow_class_after 3 1 3 Hrun).
  - exact (proj2 (suite_run_counts no_tokens "0.00" small_suite false false
                    w0)
                 eq_refl eq_refl small_suite_well_behaved).
Defined.

(** C10 fails as it is stated: a callable with a parameter, put where
    the run condition goes, is not registered; the registration error is
    raised and the suite stays empty. *)
Lemma call_rejects_predicate :
  callable predicate = true
  /\ Swallow.__call__ (Swallow.__init__ PyNone PyNone) predicate
     = Err (mkExn ValueError
              "<function <lambda>> isn't callable without positional arguments.")
           None.
Proof. split; reflexivity. Qed.

Lemma call_takes_callable_as_body_witness :
  (exists msg,
      Swallow.__call__ (Swallow.__init__ PyNone PyNone) predicate
      = Err (mkExn ValueError msg) None)
  /\ Swallow.__call__ (Swallow.__init__ PyNone PyNone) (pass_ "c")
     = Ok (Swallow.mk [mkTest PyNone PyNone PyNone (PyBool true) (pass_ "c")]
                      PyNone PyNone,
           Swallow.Decorated
             (mkTest PyNone PyNone PyNone (PyBool true) (pass_ "c")))
  /\ exists wr,
       Swallow.__call__ (Swallow.__init__ PyNone PyNone) (PyBool false)
       = Ok (Swallow.__init__ PyNone PyNone, Swallow.Decorator wr).
Proof.
  destruct (call_takes_callable_as_body (Swallow.__init__ PyNone PyNone)
              predicate eq_refl) as (Hrej & _ & _ & _).
  destruct (call_takes_callable_as_body (Swallow.__init__ PyNone PyNone)
              (pass_ "c") eq_refl) as (_ & Hok & _ & Hgate).
  split; [| split].
  - apply Hrej. left. split; [discriminate |]. right. left.
    unfold requires_positional, predicate. eauto 7.
  - apply Hok. intros [H | [H | H]]; destruct H as [Hn H].
    + destruct H as [H | [(n & a & r & d & c & [H | H])
                         | (n & r & d & k & c & H)]]; discriminate H.
    + now contradiction Hn.
    + now contradiction Hn.
  - destruct (Hgate (PyBool false) eq_refl) as (wr & H & _).
    exists wr. exact H.
Defined.

(** * More on [singletest.run] *)

Import Props MoreInputs.

(** A value that is neither a class nor an object with a comparison of
    its own differs from the class of every error. *)
Lemma type_differs_plain e v :
  plain v = true -> type_differs e v = true.
Proof. destruct v; cbn; intros H; try reflexivity; discriminate H. Qed.

(** [run] on a test that is not gated out, from the three steps. *)
Lemma run_by_steps t no_output w :
  truthy (run_if t) = true ->
  exists w1 rs,
    step no_output (setup t) w = (w1, rs)
    /\ match rs with
       | Err e tb =>
           run t no_output w
           = if is_Exception (exn_type e)
             then (w1, Ok (Some false, None, Some (sys_exc_info 185 e tb)))
             else (w1, Err e tb)
       | Ok _ =>
           exists w2 rb w3 rt,
             call_quietly no_output (fn t) w1 = (w2, rb)
             /\ step no_output (teardown t) w2 = (w3, rt)
             /\ run t no_output w
                = match body_record t rb with
                  | Ok o => (w3, teardown_record o rt)
                  | Err e tb => (w2, Err e tb)
                  end
       end.
Proof.
  intros Hif.
  destruct (step no_output (setup t) w) as [w1 rs] eqn:Hs.
  exists w1, rs. split; [reflexivity |].
  destruct rs as [[] | e tb].
  - destruct (call_quietly no_output (fn t) w1) as [w2 rb] eqn:Hb.
    destruct (step no_output (teardown t) w2) as [w3 rt] eqn:Ht.
    exists w2, rb, w3, rt. split; [reflexivity | split; [exact Ht |]].
    apply (run_after_setup _ _ _ _ _ _ _ _ Hif Hs Hb Ht).
  - unfold run. rewrite Hif. cbn [negb]. unfold bind.
    rewrite (run_setup_step _ _ _ _ _ Hs).
    destruct (is_Exception (exn_type e)); reflexivity.
Qed.

(** X1. [run] reports a test as not run exactly when its [run_if] is
    false, and then it has touched nothing. *)
Theorem run_skips_iff_gated (t : testcase) (no_output : bool) (w : world) :
  (truthy (run_if t) = false ->
   run t no_output w = (w, Ok (None, None, None)))
  /\ (forall w' reason exc,
        run t no_output w = (w', Ok (None, reason, exc)) ->
        truthy (run_if t) = false).
Proof.
  split.
  - intros H. unfold run. rewrite H. reflexivity.
  - intros w' reason exc H.
    destruct (truthy (run_if t)) eqn:Hif; [| reflexivity].
    exfalso. now apply (run_not_skipped _ _ _ _ _ Hif H).
Qed.

(** Whatever leaves [run] is no error. *)
Lemma run_escape_is_no_error (t : testcase) (no_output : bool)
    (w w' : world) (e : exn) (tb : option traceback) :
  run t no_output w = (w', Err e tb) ->
  is_Exception (exn_type e) = false.
Proof.
  destruct (truthy (run_if t)) eqn:Hif.
  2: { unfold run. rewrite Hif. discriminate. }
  destruct (run_by_steps t no_output w Hif) as (w1 & rs & _ & Hrun).
  destruct rs as [u | e1 tb1].
  - destruct Hrun as (w2 & rb & w3 & rt & _ & _ & ->).
    destruct (body_record t rb) as [o | e2 tb2] eqn:Ho.
    + unfold teardown_record. destruct rt as [u' | e3 tb3]; [discriminate |].
      destruct (is_Exception (exn_type e3)) eqn:He.
      * destruct o as [[st [r |]] [x |]]; discriminate.
      * intros H. injection H as _ <- _. exact He.
    + intros H. injection H as _ <- _.
      unfold body_record in Ho. destruct rb as [u' | e3 tb3].
      * destruct (truthy (expected t)); discriminate.
      * destruct (is_Exception (exn_type e3)) eqn:He.
        -- destruct (type_differs e3 (expected t)); discriminate.
        -- injection Ho as <- _. exact He.
  - rewrite Hrun. destruct (is_Exception (exn_type e1)) eqn:He;
      [discriminate |].
    intros H. injection H as _ <- _. exact He.
Qed.

(** X2. No error leaves [run]: whatever it raises is an exception whose
    class is not derived from [Exception]. *)
Theorem run_lets_no_error_escape (t : testcase) (no_output : bool)
    (w w' : world) (e : exn) (tb : option traceback) :
  run t no_output w = (w', Err e tb) ->
  is_Exception (exn_type e) = false.
Proof. apply run_escape_is_no_error. Qed.

(** X3. A test whose expected value is false ([None], the default, or
    another false value that differs from the class of every error: any
    but an object with a comparison of its own), and which is not gated
    out, passes exactly when its setup, its body and its teardown, each in
    its own scope and each from the state that the one before left, all
    return. *)
Theorem run_passes_iff_all_return (t : testcase) (no_output : bool)
    (w w' : world) :
  truthy (run_if t) = true ->
  truthy (expected t) = false ->
  (forall e, type_differs e (expected t) = true) ->
  (run t no_output w = (w', Ok (Some true, None, None))
   <-> exists w1 w2,
         step no_output (setup t) w = (w1, Ok tt)
         /\ call_quietly no_output (fn t) w1 = (w2, Ok tt)
         /\ step no_output (teardown t) w2 = (w', Ok tt)).
Proof.
  intros Hif Hexp Hdiff. split.
  - destruct (run_by_steps t no_output w Hif) as (w1 & rs & Hs & Hrun).
    destruct rs as [[] | e tb].
    2: { rewrite Hrun. destruct (is_Exception (exn_type e)); discriminate. }
    destruct Hrun as (w2 & rb & w3 & rt & Hb & Ht & ->).
    unfold body_record. rewrite Hexp.
    destruct rb as [[] | e tb].
    + unfold teardown_record. destruct rt as [[] | e tb].
      * intros H. injection H as <-. eauto.
      * destruct (is_Exception (exn_type e)); discriminate.
    + rewrite Hdiff.
      destruct (is_Exception (exn_type e)); [| discriminate].
      unfold teardown_record. destruct rt as [[] | e' tb'].
      * discriminate.
      * destruct (is_Exception (exn_type e')); discriminate.
  - intros (w1 & w2 & Hs & Hb & Ht).
    rewrite (run_after_setup _ _ _ _ _ _ _ _ Hif Hs Hb Ht).
    unfold body_record. rewrite Hexp. reflexivity.
Qed.

(** X4. An expected value that is true and is neither a class nor an
    object with a comparison of its own (a string, a number, a function)
    is never met: a test with it that is not gated out fails whenever
    [run] returns. *)
Theorem run_never_passes_on_non_class (t : testcase) (no_output : bool)
    (w w' : world) (state : option bool) (reason : option string)
    (exc : option exc_info) :
  truthy (run_if t) = true ->
  truthy (expected t) = true ->
  plain (expected t) = true ->
  run t no_output w = (w', Ok (state, reason, exc)) ->
  state = Some false.
Proof.
  intros Hif Hexp Hcls.
  destruct (run_by_steps t no_output w Hif) as (w1 & rs & Hs & Hrun).
  destruct rs as [[] | e tb].
  2: { rewrite Hrun. destruct (is_Exception (exn_type e)); [| discriminate].
       intros H. injection H as _ <- _ _. reflexivity. }
  destruct Hrun as (w2 & rb & w3 & rt & Hb & Ht & ->).
  assert (Ho : forall o, body_record t rb = Ok o -> fst (fst o) = Some false
                         /\ (snd (fst o) <> None \/ snd o <> None)).
  { unfold body_record. rewrite Hexp. intros o.
    destruct rb as [[] | e tb].
    - intros H. injection H as <-. split; [reflexivity | left; discriminate].
    - rewrite (type_differs_plain _ _ Hcls).
      destruct (is_Exception (exn_type e)); [| discriminate].
      intros H. injection H as <-. split; [reflexivity | right; discriminate]. }
  destruct (body_record t rb) as [[[st r] x] | e tb]; [| discriminate].
  destruct (Ho _ eq_refl) as [Hst Hrec]. cbn in Hst, Hrec. subst st.
  unfold teardown_record. destruct rt as [[] | e tb].
  - intros H. injection H as _ <- _ _. reflexivity.
  - destruct (is_Exception (exn_type e)); [| discriminate].
    destruct r, x; intros H; injection H as _ <- _ _; reflexivity.
Qed.

(** * More on the capture scope *)

Lemma with_true_keeps {A} (m : M A) (w : world) :
  file_kept m -> sys_stdout (fst (with_ true m w)) = sys_stdout w.
Proof.
  intros Hm.
  pose (w1 := set_stdout (SFile (next_fd w)) (fst (open_devnull w))).
  destruct (Hm w1 (next_fd w) eq_refl) as [fd Hfd].
  destruct (m w1) as [w2 r] eqn:Hin. cbn [fst] in Hfd.
  rewrite (with_true_restores m w w2 r fd Hin Hfd). reflexivity.
Qed.

Lemma with_keeps_file {A} (hide : bool) (m : M A) :
  file_kept m -> file_kept (with_ hide m).
Proof.
  intros Hm w fd Hw. destruct hide.
  - exists fd. rewrite (with_true_keeps m w Hm). exact Hw.
  - rewrite with_false_passthrough. exact (Hm w fd Hw).
Qed.

(** X6. Capture scopes nest: around a computation that ends with a file
    bound to [sys.stdout] when it began with one, a scope, hiding or not,
    ends with a file bound as well, and an outer scope that hides leaves
    [sys.stdout] bound as it was before entry. *)
Theorem scopes_nest {A} (inner : M A) (hide : bool) (w : world) :
  file_kept inner ->
  file_kept (with_ hide inner)
  /\ sys_stdout (fst (with_ true (with_ hide inner) w)) = sys_stdout w.
Proof.
  intros Hin. split.
  - apply with_keeps_file. exact Hin.
  - apply with_true_keeps. apply with_keeps_file. exact Hin.
Qed.

Lemma step_true_keeps (f : pyval) (w : world) :
  keeps_file f -> sys_stdout (fst (step true f w)) = sys_stdout w.
Proof.
  intros Hf. unfold step. destruct (truthy f); [| reflexivity].
  apply with_true_keeps. exact Hf.
Qed.

(** X5. [run] with [no_output] true leaves [sys.stdout] bound as it
    found it, whether the test passes, fails, is not run or lets an
    exception through, as long as the setup, the body and the teardown
    each end with a file bound to [sys.stdout] when they began with one. *)
Theorem run_restores_stdout (t : testcase) (w : world) :
  keeps_file (setup t) ->
  keeps_file (fn t) ->
  keeps_file (teardown t) ->
  sys_stdout (fst (run t true w)) = sys_stdout w.
Proof.
  intros Hsetup Hfn Htd.
  destruct (truthy (run_if t)) eqn:Hif.
  2: { unfold run. rewrite Hif. reflexivity. }
  destruct (run_by_steps t true w Hif) as (w1 & rs & Hs & Hrun).
  assert (H1 : sys_stdout w1 = sys_stdout w).
  { rewrite <- (step_true_keeps (setup t) w Hsetup), Hs. reflexivity. }
  destruct rs as [u | e tb].
  - destruct Hrun as (w2 & rb & w3 & rt & Hb & Ht & ->).
    assert (H2 : sys_stdout w2 = sys_stdout w1).
    { unfold call_quietly in Hb.
      rewrite <- (with_true_keeps (call (fn t)) w1 Hfn), Hb. reflexivity. }
    assert (H3 : sys_stdout w3 = sys_stdout w2).
    { rewrite <- (step_true_keeps (teardown t) w2 Htd), Ht. reflexivity. }
    destruct (body_record t rb); cbn [fst]; congruence.
  - rewrite Hrun. destruct (is_Exception (exn_type e)); exact H1.
Qed.

Lemma print_lines_to_file ls : forall w fd,
  sys_stdout w = SFile fd ->
  existsb (Nat.eqb fd) (closed w) = false ->
  print_lines ls w
  = (mkWorld (sys_stdout w) (next_fd w) (closed w)
             (out w ++ map (fun s => (fd, s ++ nl)) ls) (err w),
     Ok tt).
Proof.
  induction ls as [| s ls IH]; intros w fd Hw Hopen.
  - cbn. rewrite app_nil_r. destruct w; reflexivity.
  - destruct w as [so nf cl ou er]. cbn in Hw, Hopen. subst so.
    cbn [print_lines]. unfold bind, print, write.
    cbn [sys_stdout closed next_fd out err]. rewrite Hopen.
    rewrite (IH _ fd); cbn [sys_stdout closed next_fd out err];
      [| reflexivity | exact Hopen].
    rewrite <- app_assoc. reflexivity.
Qed.

Lemma written_to_app fd w l :
  map snd (filter (fun p : nat * string => Nat.eqb (fst p) fd) (out w ++ l))
  = (written_to fd w
     ++ map snd (filter (fun p : nat * string => Nat.eqb (fst p) fd) l))%list.
Proof. unfold written_to. rewrite filter_app, map_app. reflexivity. Qed.

Lemma filter_other_handle fd fd' (ls : list string) :
  fd' <> fd ->
  filter (fun p : nat * string => Nat.eqb (fst p) fd)
         (map (fun s => (fd', s ++ nl)) ls) = [].
Proof.
  intros Hne. induction ls as [| s ls IH]; [reflexivity |].
  cbn. destruct (Nat.eqb_spec fd' fd); [contradiction | exact IH].
Qed.

(** X7. What is printed inside a scope that hides goes to the sink and
    nowhere else: after the scope the sink, and no other file, has the
    lines, the sink is closed and [sys.stdout] is bound as before.  The
    handle that [open] hands out is taken not to be marked closed. *)
Theorem hidden_prints_reach_only_sink (ls : list string) (w : world) :
  existsb (Nat.eqb (next_fd w)) (closed w) = false ->
  with_ true (print_lines ls) w
  = (mkWorld (sys_stdout w) (S (next_fd w)) (next_fd w :: closed w)
             (out w ++ map (fun s => (next_fd w, s ++ nl)) ls) (err w),
     Ok tt)
  /\ forall fd, fd <> next_fd w ->
       written_to fd (fst (with_ true (print_lines ls) w)) = written_to fd w.
Proof.
  intros Hfresh.
  assert (Hrun : with_ true (print_lines ls) w
                 = (mkWorld (sys_stdout w) (S (next_fd w))
                            (next_fd w :: closed w)
                            (out w ++ map (fun s => (next_fd w, s ++ nl)) ls)
                            (err w), Ok tt)).
  { pose proof (print_lines_to_file ls
                  (set_stdout (SFile (next_fd w)) (fst (open_devnull w)))
                  (next_fd w) eq_refl Hfresh) as Hin.
    rewrite (with_true_restores _ w _ _ (next_fd w) Hin eq_refl).
    reflexivity. }
  split; [exact Hrun |].
  intros fd Hne. rewrite Hrun. cbn [fst]. unfold written_to at 1.
  cbn [out]. rewrite written_to_app, filter_other_handle by congruence.
  apply app_nil_r.
Qed.

(** * More on registration *)

(** X8. What [takes_no_positional_arguments] answers.  [False] exactly
    when [getargspec] reports a positional parameter without default: on a
    Python function with such a parameter and on a bound method of one,
    where the parameter that receives the instance counts, so that a
    bound method [m(self)] is answered [False].  [True] exactly on a
    Python function, or a bound method of one, whose positional
    parameters all have a default.  [None] exactly where [getargspec]
    raises [TypeError]: on everything that is neither (built-ins,
    classes, callable objects, [None] itself).  And no answer on a
    function with keyword-only parameters or annotations: the
    [ValueError] of [getargspec] goes through. *)
Theorem takes_no_positional_arguments_answers (f : pyval) :
  (takes_no_positional_arguments f = Ok None
   <-> (forall name required defaulted code,
          f <> PyFunction name required defaulted code
          /\ f <> PyMethod name required defaulted code)
       /\ ~ undescribed f)
  /\ (takes_no_positional_arguments f = Ok (Some true)
      <-> exists name defaulted code,
            f = PyFunction name [] defaulted code
            \/ f = PyMethod name [] defaulted code)
  /\ (takes_no_positional_arguments f = Ok (Some false)
      <-> requires_positional f)
  /\ ((exists e tb, takes_no_positional_arguments f = Err e tb)
      <-> undescribed f)
  /\ (forall e tb, takes_no_positional_arguments f = Err e tb ->
                   exn_type e = ValueError).
Proof.
  unfold requires_positional, undescribed.
  destruct f as [| b | n | s | c | name required defaulted code
                 | name code | repr truth call differs
                 | name required defaulted code
                 | name required defaulted kwrequired code];
    rewrite ?takes_no_positional_arguments_function,
            ?takes_no_positional_arguments_method.
  6, 9: (split; [| split; [| split; [| split]]];
    [ split; [discriminate |];
      intros [H _]; exfalso;
      destruct (H name required defaulted code) as [H1 H2]; congruence
    | split;
      [ destruct required; [eauto 6 | discriminate]
      | intros (n0 & d0 & c0 & [H | H]); try discriminate H;
        injection H as _ -> _ _; reflexivity ]
    | split;
      [ destruct required as [| a rs]; [discriminate | eauto 8]
      | intros (n0 & a0 & r0 & d0 & c0 & [H | H]); try discriminate H;
        injection H as _ -> _ _; reflexivity ]
    | split;
      [ intros (e & tb & H); discriminate H
      | intros (n0 & r0 & d0 & k0 & c0 & H); discriminate H ]
    | intros e tb H; discriminate H ]).
  8: (split; [| split; [| split; [| split]]];
    [ split; [discriminate |]; intros [_ H]; exfalso; apply H; eauto 7
    | split; [discriminate | intros (n0 & d0 & c0 & [H | H]); discriminate H]
    | split;
      [ discriminate
      | intros (n0 & a0 & r0 & d0 & c0 & [H | H]); discriminate H ]
    | split; [intros _; eauto 7 | intros _; cbn; eauto]
    | intros e tb H; cbn in H; injection H as <- _; reflexivity ]).
  all: (split; [| split; [| split; [| split]]];
    [ split; [intros _ | reflexivity];
      split; [intros; split; discriminate |];
      intros (n0 & r0 & d0 & k0 & c0 & H); discriminate H
    | split; [discriminate | intros (n0 & d0 & c0 & [H | H]); discriminate H]
    | split;
      [ discriminate
      | intros (n0 & a0 & r0 & d0 & c0 & [H | H]); discriminate H ]
    | split;
      [ intros (e & tb & H); discriminate H
      | intros (n0 & r0 & d0 & k0 & c0 & H); discriminate H ]
    | intros e tb H; discriminate H ]).
Qed.

Lemma check_callable_exact f :
  (rejected f -> check_callable f = Err (registration_error f) None)
  /\ (~ rejected f -> check_callable f = Ok tt).
Proof.
  split.
  - intros [Hnone [Hcall | [(name & a & rs & ds & code & [-> | ->])
                           | (name & rs & ds & ks & code & ->)]]].
    + unfold check_callable. rewrite Hcall.
      destruct f; try (now contradiction Hnone); try discriminate Hcall;
        unfold registration_error; try rewrite Hcall; reflexivity.
    + unfold check_callable, registration_error.
      cbn [is_None callable negb andb].
      rewrite takes_no_positional_arguments_function. reflexivity.
    + unfold check_callable, registration_error.
      cbn [is_None callable negb andb].
      rewrite takes_no_positional_arguments_method. reflexivity.
    + reflexivity.
  - intros Hno. destruct (check_callable_result f) as [H | [msg H]];
      [exact H |].
    exfalso. apply Hno. apply check_callable_rejected. eauto.
Qed.

(** X9. The registration error is the one of the first value refused
    in the order body, setup, teardown, and tells which check refused it:
    the text is [str] of the value followed by [isn't callable.] for a
    value that is not callable, and by [isn't callable without positional
    arguments.] for a function, or a bound method, for which [getargspec]
    reports a parameter without default; for a function with
    keyword-only parameters or annotations it is the [ValueError] of
    [getargspec] itself.  The values are those modelled: a tuple, on which
    the formatting of the text itself goes wrong, is not among them. *)
Theorem registration_names_first_offender
    (expected setup teardown run_if fn : pyval) :
  (rejected fn ->
   decorating_function expected setup teardown run_if fn
   = Err (registration_error fn) None)
  /\ (~ rejected fn -> rejected setup ->
      decorating_function expected setup teardown run_if fn
      = Err (registration_error setup) None)
  /\ (~ rejected fn -> ~ rejected setup -> rejected teardown ->
      decorating_function expected setup teardown run_if fn
      = Err (registration_error teardown) None).
Proof.
  unfold decorating_function. split; [| split].
  - intros H. rewrite (proj1 (check_callable_exact fn) H). reflexivity.
  - intros Hf Hs. rewrite (proj2 (check_callable_exact fn) Hf).
    rewrite (proj1 (check_callable_exact setup) Hs). reflexivity.
  - intros Hf Hs Ht. rewrite (proj2 (check_callable_exact fn) Hf).
    rewrite (proj2 (check_callable_exact setup) Hs).
    rewrite (proj1 (check_callable_exact teardown) Ht). reflexivity.
Qed.

Lemma decorating_function_rejects_fn expected setup teardown run_if fn :
  rejected fn ->
  decorating_function expected setup teardown run_if fn
  = Err (registration_error fn) None.
Proof.
  intros H. unfold decorating_function.
  rewrite (proj1 (check_callable_exact fn) H). reflexivity.
Qed.

Lemma wrapper_accepts expected run_if f self :
  ~ rejected (Swallow.setup self) ->
  ~ rejected (Swallow.teardown self) ->
  ~ rejected f ->
  Swallow.wrapper expected run_if f self
  = Ok (Swallow.append
          (mkTest expected (Swallow.setup self) (Swallow.teardown self)
                  run_if f) self,
        mkTest expected (Swallow.setup self) (Swallow.teardown self)
               run_if f).
Proof.
  intros Hs Ht Hf. unfold Swallow.wrapper, decorating_function.
  rewrite (proj2 (check_callable_exact f) Hf).
  rewrite (proj2 (check_callable_exact _) Hs).
  rewrite (proj2 (check_callable_exact _) Ht). reflexivity.
Qed.

(** X10. Registration is append-only and keeps the order of the calls:
    decorating the functions [fs] one after the other with
    [expect(expected, run_if)] (or with [t(run_if)], where [expected] is
    [None]) leaves the suite with the tests it had, followed by one test
    per function, in the order of the calls, each with the setup and the
    teardown of the suite; and a function that the validation refuses
    stops the sequence with its registration error. *)
Theorem registration_keeps_call_order (expected run_if : pyval)
    (fs : list pyval) (self : Swallow.t) :
  ~ rejected (Swallow.setup self) ->
  ~ rejected (Swallow.teardown self) ->
  Forall (fun f => ~ rejected f) fs ->
  register_each expected run_if fs self
  = Ok (Swallow.mk
          (Swallow.tests self
           ++ map (mkTest expected (Swallow.setup self)
                          (Swallow.teardown self) run_if) fs)
          (Swallow.setup self) (Swallow.teardown self))
  /\ forall f fs',
       rejected f ->
       register_each expected run_if (fs ++ f :: fs') self
       = Err (registration_error f) None.
Proof.
  intros Hs Ht Hfs. revert self Hs Ht.
  induction Hfs as [| f0 fs Hf0 _ IH]; intros self Hs Ht.
  - split.
    + cbn. rewrite app_nil_r. destruct self; reflexivity.
    + intros f fs' Hf. cbn. unfold Swallow.wrapper.
      rewrite (decorating_function_rejects_fn _ _ _ _ _ Hf). reflexivity.
  - cbn [register_each app].
    assert (Hw := wrapper_accepts expected run_if f0 self Hs Ht Hf0).
    split.
    + rewrite Hw.
      destruct (IH (Swallow.append
                      (mkTest expected (Swallow.setup self)
                              (Swallow.teardown self) run_if f0) self)
                   Hs Ht) as [-> _].
      cbn. rewrite <- app_assoc. reflexivity.
    + intros f fs' Hf. rewrite Hw.
      destruct (IH (Swallow.append
                      (mkTest expected (Swallow.setup self)
                              (Swallow.teardown self) run_if f0) self)
                   Hs Ht) as [_ Hrej].
      exact (Hrej f fs' Hf).
Qed.

(** * More on the diagnostics *)

Lemma format_tb_cons tb : exists l ls, format_tb tb = l :: ls.
Proof. destruct tb as [[name lv gv src] ln next]. cbn. eauto. Qed.

(** X12. The loop at the head of [get_meaningful_expression] ends on
    the frame that has no [tb_next], running it again changes nothing, and
    that frame is the one of the last line of the stack trace. *)
Theorem innermost_is_last_frame (tb : traceback) :
  tb_next (innermost tb) = None
  /\ innermost (innermost tb) = innermost tb
  /\ format_tb (innermost tb) = [last (format_tb tb) ""].
Proof.
  revert tb. fix IH 1. intros [[name lv gv src] ln [next |]].
  - destruct (IH next) as (H1 & H2 & H3).
    cbn [innermost]. split; [exact H1 | split; [exact H2 |]].
    rewrite H3. cbn [format_tb].
    destruct (format_tb_cons next) as (l & ls & ->). reflexivity.
  - cbn. auto.
Qed.

Section DiagnosticFacts.

Variable tokenize : string -> list token * option exn.

(** X14. [print_exception] writes to [sys.stderr] only: [sys.stdout],
    the files and what was written to them stay as they are.  It always
    writes the whole stack trace first; one more line may follow, the
    expanded line behind four blanks, and only when the expansion was
    asked for, succeeded and differs from the line itself. *)
Theorem print_exception_writes_stderr_only (type : pyclass) (value : exn)
    (tb : traceback) (expand_errors : bool) (w : world) :
  let w' := fst (print_exception tokenize type value tb expand_errors w) in
  sys_stdout w' = sys_stdout w
  /\ next_fd w' = next_fd w
  /\ closed w' = closed w
  /\ out w' = out w
  /\ exists extra,
       err w' = (err w ++ format_exception type value (tb_next tb)
                 ++ extra)%list
       /\ (extra = []
           \/ exists o e,
                expand_errors = true
                /\ get_meaningful_expression tokenize (tb_next tb)
                   = Ok (o, e)
                /\ o <> e
                /\ extra = [spaces 4 ++ e]).
Proof.
  destruct tb as [fr ln next]. cbn [tb_next].
  unfold print_exception, bind, traceback_print_exception.
  destruct expand_errors.
  - destruct (get_meaningful_expression tokenize next) as [[o e] | e t] eqn:Hg.
    + destruct (String.eqb o e) eqn:Hoe; cbn.
      * repeat split. exists []. rewrite app_nil_r. auto.
      * repeat split. exists [spaces 4 ++ e]. rewrite <- app_assoc.
        split; [reflexivity |]. right. exists o, e.
        apply String.eqb_neq in Hoe. auto.
    + cbn. repeat split. exists []. rewrite app_nil_r. auto.
  - cbn. repeat split. exists []. rewrite app_nil_r. auto.
Qed.


End DiagnosticFacts.

(** * The report of [Swallow.run] *)

Lemma write_to_file s w fd :
  sys_stdout w = SFile fd ->
  stdout_usable w = true ->
  exists w',
    write s w = (w', Ok tt)
    /\ sys_stdout w' = SFile fd
    /\ stdout_usable w' = true
    /\ written_to fd w' = (written_to fd w ++ [s])%list.
Proof.
  destruct w as [so nf cl ou er]. unfold stdout_usable, write, written_to.
  cbn [sys_stdout next_fd closed out err]. intros -> H.
  apply andb_prop in H as [Hlt Hopen]. apply negb_true_iff in Hopen.
  rewrite Hopen. eexists. split; [reflexivity |].
  cbn [sys_stdout next_fd closed out err]. rewrite Hlt, Hopen.
  split; [reflexivity | split; [reflexivity |]].
  rewrite filter_app, map_app. cbn [filter fst]. rewrite Nat.eqb_refl.
  reflexivity.
Qed.

Lemma report_lines_cons t ts o os :
  report_lines (t :: ts) (o :: os)
  = ("Testing " ++ Swallow.test_name t ++ ": ")
    :: (label (fst (fst o)) ++ nl) :: report_lines ts os.
Proof. reflexivity. Qed.

Section ReportFacts.

Variable tokenize : string -> list token * option exn.

Lemma run_tests_report ts no_output fd :
  Forall (silent_on fd no_output) ts ->
  forall passed not_run failed last w,
    sys_stdout w = SFile fd ->
    stdout_usable w = true ->
    exists w' os,
      Swallow.run_tests tokenize ts no_output false
                        (passed, not_run, failed) last w
      = (w', Ok (passed + tally (Some true) os, not_run + tally None os,
                 failed + tally (Some false) os))
      /\ sys_stdout w' = SFile fd
      /\ stdout_usable w' = true
      /\ Forall2 (fun t o => exists wa wb, run t no_output wa = (wb, Ok o))
                 ts os
      /\ written_to fd w' = (written_to fd w ++ report_lines ts os)%list.
Proof.
  induction 1 as [| tc ts Htc _ IH]; intros passed not_run failed last w Hfd Hw.
  - exists w, []. cbn. unfold ret. rewrite !Nat.add_0_r, app_nil_r.
    repeat split; auto.
  - cbn [Swallow.run_tests].
    destruct (write_to_file ("Testing " ++ Swallow.test_name tc ++ ": ")
                            _ _ Hfd Hw) as (w1 & Hp & Hfd1 & Hw1 & Hout1).
    unfold print_noend. rewrite (bind_Ok_intro _ _ _ _ _ Hp).
    destruct (Htc w1 Hfd1 Hw1)
      as (w2 & [[state reason] exc] & Hrun & Hfd2 & Hw2 & Hout2).
    rewrite (bind_Ok_intro _ _ _ _ _ Hrun).
    pose proof (run_outcome_shape _ _ _ _ _ _ _ Hrun) as Hshape.
    destruct (write_to_file (label state ++ nl) _ _ Hfd2 Hw2)
      as (w3 & Hp3 & Hfd3 & Hw3 & Hout3).
    assert (Hrest : forall p n f last' w4,
              sys_stdout w4 = SFile fd -> stdout_usable w4 = true ->
              written_to fd w4 = written_to fd w3 ->
              p + n + f = S (passed + not_run + failed) ->
              p = passed + (if state_eqb state (Some true) then 1 else 0) ->
              n = not_run + (if state_eqb state None then 1 else 0) ->
              f = failed + (if state_eqb state (Some false) then 1 else 0) ->
              exists w' os,
                Swallow.run_tests tokenize ts no_output false (p, n, f)
                                  last' w4
                = (w', Ok (passed + tally (Some true) os,
                           not_run + tally None os,
                           failed + tally (Some false) os))
                /\ sys_stdout w' = SFile fd
                /\ stdout_usable w' = true
                /\ Forall2 (fun t o =>
                              exists wa wb, run t no_output wa = (wb, Ok o))
                           (tc :: ts) os
                /\ written_to fd w'
                   = (written_to fd w ++ report_lines (tc :: ts) os)%list).
    { intros p n f last' w4 Hfd4 Hw4 Hout4 _ Hp' Hn' Hf'.
      destruct (IH p n f last' w4 Hfd4 Hw4)
        as (w' & os & Hloop & Hfd' & Hw' & Hos & Hout').
      exists w', ((state, reason, exc) :: os).
      rewrite Hloop, !tally_cons. cbn [fst]. subst p n f.
      rewrite !Nat.add_assoc.
      split; [reflexivity |]. split; [exact Hfd' |]. split; [exact Hw' |].
      split; [constructor; [eauto | exact Hos] |].
      rewrite Hout', Hout4, Hout3, Hout2, Hout1, report_lines_cons.
      cbn [fst]. rewrite <- !app_assoc. reflexivity. }
    destruct state as [[|] |]; cbn [label] in Hp3.
    + unfold print. unfold bind at 1. unfold bind at 1. rewrite Hp3.
      cbn [ret]. apply Hrest; cbn; auto; lia.
    + unfold print. unfold bind at 1. unfold bind at 1. rewrite Hp3.
      destruct reason as [[| c r] |].
      * exfalso. exact (run_reason_not_empty _ _ _ _ _ _ Hrun).
      * unfold bind at 1. cbn [print_stderr ret].
        apply Hrest; cbn; auto; lia.
      * destruct exc as [ei |].
        2: { destruct Hshape as [[Hn _] | [_ Hn]]; now contradiction Hn. }
        unfold bind at 1. destruct (ei_tb ei) as [fr ln next] eqn:Htb.
        cbn [print_exception bind traceback_print_exception ret].
        unfold bind. cbn [ret].
        apply Hrest; cbn; auto; lia.
    + unfold print. unfold bind at 1. unfold bind at 1. rewrite Hp3.
      cbn [ret]. apply Hrest; cbn; auto; lia.
Qed.

Variable elapsed : string.

(** X11. The report of [Swallow.run] on the file bound to [sys.stdout],
    when no expansion is asked for and every case returns from [run]
    leaving that file bound, usable and with nothing more written to it:
    for each case, in registration order, [Testing <name>: ] and then
    [PASS], [NOT RUN] or [FAIL] by the state its [run] returned; then an
    empty line, the line of the counts and the line of the timer.  The
    counts returned are those of the report. *)
Theorem suite_run_report (self : Swallow.t) (no_output : bool) (fd : nat)
    (w : world) :
  sys_stdout w = SFile fd ->
  stdout_usable w = true ->
  Forall (silent_on fd no_output) (Swallow.tests self) ->
  exists w' os,
    Swallow.run tokenize elapsed self no_output false w
    = (w', Ok (tally (Some true) os, tally None os, tally (Some false) os))
    /\ Forall2 (fun t o => exists wa wb, run t no_output wa = (wb, Ok o))
               (Swallow.tests self) os
    /\ written_to fd w'
       = (written_to fd w
          ++ report_lines (Swallow.tests self) os
          ++ [nl;
              (Swallow.summary (length (Swallow.tests self))
                               (tally (Some true) os) (tally None os)
                               (tally (Some false) os) ++ nl)%string;
              (("Executed in " ++ elapsed ++ " seconds.") ++ nl)%string])%list.
Proof.
  intros Hfd Hw Hall.
  destruct (run_tests_report _ _ _ Hall 0 0 0 None w Hfd Hw)
    as (w1 & os & Hloop & Hfd1 & Hw1 & Hos & Hout1).
  cbn [plus] in Hloop.
  destruct (write_to_file ("" ++ nl) _ _ Hfd1 Hw1)
    as (w2 & Hp2 & Hfd2 & Hw2 & Hout2).
  destruct (write_to_file
              (Swallow.summary (length (Swallow.tests self))
                               (tally (Some true) os) (tally None os)
                               (tally (Some false) os) ++ nl)
              _ _ Hfd2 Hw2) as (w3 & Hp3 & Hfd3 & Hw3 & Hout3).
  destruct (write_to_file (("Executed in " ++ elapsed ++ " seconds.") ++ nl)
                          _ _ Hfd3 Hw3) as (w4 & Hp4 & Hfd4 & Hw4 & Hout4).
  exists w4, os. split; [| split; [exact Hos |]].
  - unfold Swallow.run, timer.
    unfold bind at 1. unfold bind at 1. rewrite Hloop.
    unfold print. unfold bind at 1. rewrite Hp2.
    unfold bind at 1. rewrite Hp3. cbn [ret].
    unfold bind at 1. rewrite Hp4. reflexivity.
  - rewrite Hout4, Hout3, Hout2, Hout1. rewrite <- !app_assoc. reflexivity.
Qed.

End ReportFacts.

(** * The further properties at concrete inputs *)

Lemma not_rejected_None : ~ rejected PyNone.
Proof. intros [H _]. now contradiction H. Qed.

Lemma not_rejected_plain name defaulted code :
  ~ rejected (PyFunction name [] defaulted code).
Proof.
  intros [_ [H | [(n & a & r & d & c & [H | H])
                 | (n & r & d & k & c & H)]]]; discriminate H.
Qed.

Lemma not_rejected_builtin name code : ~ rejected (PyBuiltin name code).
Proof.
  intros [_ [H | [(n & a & r & d & c & [H | H])
                 | (n & r & d & k & c & H)]]]; discriminate H.
Qed.

Lemma keeps_file_None : keeps_file PyNone.
Proof. intros w fd H. exists fd. exact H. Qed.

Lemma keeps_file_printing name text : keeps_file (printing name text).
Proof.
  intros w fd H. exists fd. unfold call, printing, print, write.
  rewrite H. destruct (existsb (Nat.eqb fd) (closed w)); cbn;
    [exact H | reflexivity].
Qed.

Lemma file_kept_print_then_raise : file_kept print_then_raise.
Proof.
  intros w fd H. exists fd.
  unfold print_then_raise, bind, print, write, raise.
  rewrite H. destruct (existsb (Nat.eqb fd) (closed w)); cbn;
    [exact H | reflexivity].
Qed.

(** A case that prints, run with its output hidden, is silent on the file
    bound to [sys.stdout]. *)
Lemma silent_on_hidden_printing fd name text :
  silent_on fd true
    (mkTest PyNone PyNone PyNone (PyBool true) (printing name text)).
Proof.
  intros [so nf cl ou er] Hso Hw. cbn in Hso. subst so.
  unfold stdout_usable in Hw. cbn [sys_stdout next_fd closed] in Hw.
  apply andb_prop in Hw as [Hlt Hopen].
  assert (Hne : Nat.eqb fd nf = false).
  { apply Nat.eqb_neq. apply Nat.ltb_lt in Hlt. lia. }
  assert (Hne' : Nat.eqb nf fd = false) by (rewrite Nat.eqb_sym; exact Hne).
  assert (Hlt' : (fd <? S nf)%nat = true).
  { apply Nat.ltb_lt. apply Nat.ltb_lt in Hlt. lia. }
  unfold run, run_setup, run_body, run_teardown, try_except_Exception,
    bind, ret, call_quietly, with_, call, printing, print, write.
  cbn -[Nat.ltb nl append].
  destruct (existsb (Nat.eqb nf) cl) eqn:Hsink;
    cbn -[Nat.ltb nl append];
    (eexists; eexists; split; [reflexivity |]);
    unfold stdout_usable, written_to;
    cbn -[Nat.ltb nl append];
    rewrite ?Hne, ?Hlt'; cbn -[Nat.ltb nl append];
    rewrite ?filter_app; cbn -[Nat.ltb nl append]; rewrite ?Hne';
    rewrite ?app_nil_r; auto.
Qed.

Lemma run_skips_iff_gated_witness :
  run test_gated true w0 = (w0, Ok (None, None, None))
  /\ truthy (run_if test_gated) = false.
Proof.
  destruct (run_skips_iff_gated test_gated true w0) as [Hskip Honly].
  split.
  - exact (Hskip eq_refl).
  - exact (Honly w0 None None (Hskip eq_refl)).
Defined.

Lemma run_lets_no_error_escape_witness :
  snd (run test_interrupted true w0)
  = Err (mkExn KeyboardInterrupt "")
        (Some (Tb (user_frame "stop" "    raise KeyboardInterrupt()") 1 None))
  /\ is_Exception KeyboardInterrupt = false.
Proof.
  split; [reflexivity |].
  exact (run_lets_no_error_escape test_interrupted true w0
           (fst (run test_interrupted true w0))
           (mkExn KeyboardInterrupt "")
           (Some (Tb (user_frame "stop" "    raise KeyboardInterrupt()")
                     1 None))
           eq_refl).
Defined.

Lemma run_passes_iff_all_return_witness :
  run test_a true w0
  = (fst (call_quietly true (pass_ "a") w0), Ok (Some true, None, None)).
Proof.
  apply (proj2 (run_passes_iff_all_return test_a true w0
                  (fst (call_quietly true (pass_ "a") w0))
                  eq_refl eq_refl (fun e => eq_refl))).
  exists w0, (fst (call_quietly true (pass_ "a") w0)).
  split; [reflexivity | split; reflexivity].
Defined.

Lemma run_never_passes_on_non_class_witness :
  run test_string_kind true w0
  = (fst (call_quietly true (div0 "s") w0),
     Ok (Some false, None,
         Some (sys_exc_info 195 zero_division (tb_in "s"))))
  /\ forall state reason exc w',
       run test_string_kind true w0 = (w', Ok (state, reason, exc)) ->
       state = Some false.
Proof.
  split; [reflexivity |].
  intros state reason exc w'.
  exact (run_never_passes_on_non_class test_string_kind true w0 w' state
           reason exc eq_refl eq_refl eq_refl).
Defined.

Lemma run_restores_stdout_witness :
  sys_stdout (fst (run test_noisy true w0)) = SFile 0.
Proof.
  exact (run_restores_stdout test_noisy w0
           (keeps_file_printing "before" "in")
           (keeps_file_printing "noisy" "hello")
           (keeps_file_printing "after" "out")).
Defined.

Lemma scopes_nest_witness :
  file_kept (with_ false print_then_raise)
  /\ sys_stdout (fst (with_ true (with_ false print_then_raise) w0))
     = SFile 0.
Proof.
  exact (scopes_nest print_then_raise false w0 file_kept_print_then_raise).
Defined.

Lemma hidden_prints_reach_only_sink_witness :
  with_ true (print_lines ["a"; "b"]) w0
  = (mkWorld (SFile 0) 2 [1] [(1, "a" ++ nl); (1, "b" ++ nl)] [], Ok tt)
  /\ written_to 0 (fst (with_ true (print_lines ["a"; "b"]) w0)) = [].
Proof.
  destruct (hidden_prints_reach_only_sink ["a"; "b"] w0 eq_refl)
    as [Hrun Hother].
  split; [exact Hrun |].
  apply (Hother 0). discriminate.
Defined.

Lemma takes_no_positional_arguments_answers_witness :
  takes_no_positional_arguments (fn_of ["a"; "b"] ["l"]) = Ok (Some false)
  /\ takes_no_positional_arguments bound_method = Ok (Some false)
  /\ takes_no_positional_arguments builtin_print = Ok None
  /\ exists e tb, takes_no_positional_arguments annotated = Err e tb.
Proof.
  split; [| split; [| split]].
  - apply (proj2 (proj1 (proj2 (proj2 (takes_no_positional_arguments_answers
                                         (fn_of ["a"; "b"] ["l"])))))).
    unfold requires_positional, fn_of. eauto 7.
  - apply (proj2 (proj1 (proj2 (proj2 (takes_no_positional_arguments_answers
                                         bound_method))))).
    unfold requires_positional, bound_method. eauto 7.
  - apply (proj2 (proj1 (takes_no_positional_arguments_answers
                           builtin_print))).
    split.
    + intros name required defaulted code. split; discriminate.
    + intros (n & r & d & k & c & H). discriminate H.
  - apply (proj2 (proj1 (proj2 (proj2 (proj2
             (takes_no_positional_arguments_answers annotated)))))).
    unfold undescribed, annotated. eauto 7.
Defined.

Lemma registration_names_first_offender_witness :
  decorating_function PyNone (PyInt 42) (fn_of ["x"] []) (PyBool true)
                      (pass_ "a")
  = Err (mkExn ValueError "42 isn't callable.") None
  /\ decorating_function PyNone PyNone (fn_of ["x"] []) (PyBool true)
                         (pass_ "a")
     = Err (mkExn ValueError
              "<function f> isn't callable without positional arguments.")
           None
  /\ decorating_function PyNone (PyInt 42) PyNone (PyBool true) annotated
     = Err (mkExn ValueError
              "Function has keyword-only arguments or annotations, use getfullargspec() API which can support them")
           None.
Proof.
  split; [| split].
  - apply (proj1 (proj2 (registration_names_first_offender PyNone (PyInt 42)
                           (fn_of ["x"] []) (PyBool true) (pass_ "a")))).
    + apply not_rejected_plain.
    + split; [discriminate | left; reflexivity].
  - apply (proj2 (proj2 (registration_names_first_offender PyNone PyNone
                           (fn_of ["x"] []) (PyBool true) (pass_ "a")))).
    + apply not_rejected_plain.
    + apply not_rejected_None.
    + split; [discriminate |]. right. left.
      unfold requires_positional, fn_of. eauto 7.
  - apply (proj1 (registration_names_first_offender PyNone (PyInt 42) PyNone
                    (PyBool true) annotated)).
    split; [discriminate |]. right. right.
    unfold undescribed, annotated. eauto 7.
Defined.

Lemma registration_keeps_call_order_witness :
  register_each (PyType ZeroDivisionError) (PyBool true)
                [div0 "d"; pass_ "g"] (Swallow.__init__ PyNone PyNone)
  = Ok (Swallow.mk
          [mkTest (PyType ZeroDivisionError) PyNone PyNone (PyBool true)
                  (div0 "d");
           mkTest (PyType ZeroDivisionError) PyNone PyNone (PyBool true)
                  (pass_ "g")]
          PyNone PyNone)
  /\ register_each (PyType ZeroDivisionError) (PyBool true)
                   [div0 "d"; pass_ "g"; PyInt 3; pass_ "h"]
                   (Swallow.__init__ PyNone PyNone)
     = Err (mkExn ValueError "3 isn't callable.") None.
Proof.
  destruct (registration_keeps_call_order (PyType ZeroDivisionError)
              (PyBool true) [div0 "d"; pass_ "g"]
              (Swallow.__init__ PyNone PyNone)
              not_rejected_None not_rejected_None) as [Hok Hstop].
  - repeat constructor; apply not_rejected_plain.
  - split; [exact Hok |].
    apply (Hstop (PyInt 3) [pass_ "h"]).
    split; [discriminate | left; reflexivity].
Defined.

Lemma suite_run_report_witness :
  exists w' os,
    Swallow.run no_tokens "0.00" noisy_suite true false w0
    = (w', Ok (tally (Some true) os, tally None os, tally (Some false) os))
    /\ Forall2 (fun t o => exists wa wb, run t true wa = (wb, Ok o))
               (Swallow.tests noisy_suite) os
    /\ written_to 0 w'
       = (written_to 0 w0
          ++ report_lines (Swallow.tests noisy_suite) os
          ++ [nl;
              (Swallow.summary (length (Swallow.tests noisy_suite))
                               (tally (Some true) os) (tally None os)
                               (tally (Some false) os) ++ nl)%string;
              (("Executed in " ++ "0.00" ++ " seconds.") ++ nl)%string])%list.
Proof.
  apply (suite_run_report no_tokens "0.00" noisy_suite true 0 w0
           eq_refl eq_refl).
  constructor; [| constructor].
  apply silent_on_hidden_printing.
Defined.

(** What the file of handle 0 has after that run. *)
Example noisy_suite_report :
  written_to 0 (fst (Swallow.run no_tokens "0.00" noisy_suite true false w0))
  = ["Testing noisy: "; "PASS" ++ nl; nl;
     "1 tests, 1 PASS, 0 NOT RUN, 0 FAIL" ++ nl;
     "Executed in 0.00 seconds." ++ nl].
Proof. reflexivity. Qed.


(** The whole run of a suite with that case raises. *)
Example suite_run_raises_on_builtin :
  snd (Swallow.run tokenize_table "0.00"
         (Swallow.mk [test_len] PyNone PyNone) true true w0)
  = Err (mkExn AttributeError
           "'NoneType' object has no attribute 'tb_next'") None.
Proof. reflexivity. Qed.

(** The frames of [deep_tb]: the expansion works on the last one. *)
Example innermost_of_deep_tb :
  innermost deep_tb = Tb (user_frame "inner" "    1 // 0") 1 None.
Proof. reflexivity. Qed.

(** * More on the scope and on the iteration *)

(** X15. A scope that hides closes the file that is bound to
    [sys.stdout] when the computation inside ends, whichever it is: when
    the computation has bound another file than the sink, that file is
    closed by the scope and the sink is left open. *)
Theorem scope_closes_bound_file {A} (inner : M A) (w w2 : world)
    (r : res A) (fd : nat) :
  inner (set_stdout (SFile (next_fd w)) (fst (open_devnull w))) = (w2, r) ->
  sys_stdout w2 = SFile fd ->
  fd <> next_fd w ->
  existsb (Nat.eqb (next_fd w)) (closed w2) = false ->
  existsb (Nat.eqb fd) (closed (fst (with_ true inner w))) = true
  /\ existsb (Nat.eqb (next_fd w)) (closed (fst (with_ true inner w)))
     = false.
Proof.
  intros Hin Hfd Hne Hsink.
  rewrite (with_true_restores _ _ _ _ _ Hin Hfd). cbn [fst closed existsb].
  rewrite Nat.eqb_refl, Hsink.
  split; [reflexivity |].
  destruct (Nat.eqb_spec (next_fd w) fd); [congruence | reflexivity].
Qed.

Lemma scope_closes_bound_file_witness :
  closed (fst (with_ true rebinding w0)) = [2]
  /\ existsb (Nat.eqb 2) (closed (fst (with_ true rebinding w0))) = true
  /\ existsb (Nat.eqb 1) (closed (fst (with_ true rebinding w0))) = false.
Proof.
  split; [reflexivity |].
  apply (scope_closes_bound_file rebinding w0
           (mkWorld (SFile 2) 3 [] [] []) (Ok tt) 2 eq_refl eq_refl).
  - discriminate.
  - reflexivity.
Defined.

Lemma yields_length no_output ts w os w' :
  yields no_output ts w os w' -> length os = length ts.
Proof. induction 1; cbn; congruence. Qed.

Lemma iter_tests_escape_is_no_error ts : forall w w' e tb,
  Swallow.iter_tests ts w = (w', Err e tb) ->
  is_Exception (exn_type e) = false.
Proof.
  induction ts as [| tc ts IH]; intros w w' e tb; cbn [Swallow.iter_tests].
  - discriminate.
  - unfold bind at 1.
    destruct (run tc false w) as [w1 [o | e1 tb1]] eqn:Hrun.
    + unfold bind.
      destruct (Swallow.iter_tests ts w1) as [w2 [os | e2 tb2]] eqn:Hrest.
      * discriminate.
      * intros H. injection H as _ <- _. exact (IH _ _ _ _ Hrest).
    + intros H. injection H as _ <- _.
      exact (run_escape_is_no_error _ _ _ _ _ _ Hrun).
Qed.

(** X16. Iterating over a suite to the end yields one outcome per
    registered case, and no error of a case ends the iteration: what it
    raises, if anything, is an exception whose class is not derived from
    [Exception]. *)
Theorem iter_one_outcome_per_case (self : Swallow.t) (w : world) :
  (forall w' os,
      Swallow.__iter__ self w = (w', Ok os) ->
      length os = length (Swallow.tests self))
  /\ (forall w' e tb,
        Swallow.__iter__ self w = (w', Err e tb) ->
        is_Exception (exn_type e) = false).
Proof.
  split.
  - intros w' os H. apply iter_tests_yields in H.
    exact (yields_length _ _ _ _ _ H).
  - intros w' e tb. apply iter_tests_escape_is_no_error.
Qed.

Lemma iter_one_outcome_per_case_witness :
  length [(Some true, @None string, @None exc_info);
          (None, None, None);
          (Some false, None,
           Some (sys_exc_info 195 zero_division (tb_in "e")))]
  = length (Swallow.tests small_suite)
  /\ is_Exception KeyboardInterrupt = false.
Proof.
  split.
  - apply (proj1 (iter_one_outcome_per_case small_suite w0) w0).
    reflexivity.
  - apply (proj2 (iter_one_outcome_per_case
                    (Swallow.mk [test_a; test_interrupted] PyNone PyNone) w0)
                 w0 (mkExn KeyboardInterrupt "")
                 (Some (Tb (user_frame "stop" "    raise KeyboardInterrupt()")
                           1 None))).
    reflexivity.
Defined.

(** The run of [examples.py], with the output that its comment shows. *)
Example examples_run :
  snd (Swallow.run no_tokens "0.00" examples_suite true true w0)
  = Ok (2, 0, 0)
  /\ written_to 0
       (fst (Swallow.run no_tokens "0.00" examples_suite true true w0))
     = ["Testing answer_to_the_life: "; "PASS" ++ nl;
        "Testing division_by_zero: "; "PASS" ++ nl; nl;
        "2 tests, 2 PASS, 0 NOT RUN, 0 FAIL" ++ nl;
        "Executed in 0.00 seconds." ++ nl].
Proof. split; reflexivity. Qed.

(** An expected value with a comparison of its own: every error is
    equal to [any_object], so the failing body counts as expected. *)
Example run_with_any_object :
  snd (run test_any true w0) = Ok (Some true, None, None).
Proof. reflexivity. Qed.

(** A bound method and an annotated function as the setup of a suite:
    the registration of any body is refused. *)
Example suite_refuses_bound_method_setup :
  Swallow.__call__ (Swallow.__init__ bound_method PyNone) (pass_ "a")
  = Err (mkExn ValueError
           "<bound method m> isn't callable without positional arguments.")
        None
  /\ call bound_method w0 = (w0, Ok tt).
Proof. split; reflexivity. Qed.
